(** * childcare_companion: the diary store, the embedding metadata store and
      the child-scoped similarity search of [utils.py]

    The development embeds the functions of [utils.py] (and the constants of
    [constants.py] they use) as Rocq functions and proves the properties the
    specification states about them.

    Conventions of the embedding.
    - The three JSON files ([children.json], [diaries.json],
      [embeddings_metadata.json]) and the serialized index file are the
      fields of one [Store]; every [load_*]/[save_*] pair of the source is a
      read or a write of that field, and the store is passed explicitly.
    - JSON objects are records.  A key the source reads with [dict.get] is an
      [option] field (the key may be absent); a key read with [d["k"]] is a
      plain field.
    - [uuid.uuid4()] and [date.today()] are explicit arguments.
    - The external services are parameters: the embedding model
      ([create_embedding], which already turns every failure into the empty
      list) and the chat model.
    - The calls into numpy and faiss are functions that follow the
      documented behaviour of [np.array], [ndarray.shape] and
      [IndexFlatL2.add]/[search], with the exceptions they raise.
    - float32 numbers are an abstract carrier with its operations; the only
      property ever assumed of it is that comparison is total (no NaN).
    - [birth_date] is kept as the calendar date [datetime.strptime] parses
      it to. *)

From Stdlib Require Import ZArith List String Ascii Bool Lia.
From Stdlib Require Import Sorted Permutation DecimalString.
Import ListNotations.

Open Scope string_scope.
Open Scope list_scope.
Open Scope Z_scope.

(** String concatenation, kept apart from list concatenation. *)
Infix "+++" := String.append (right associativity, at level 60).

(** ** Python values *)

(** The exceptions the modelled code can meet. *)
Inductive exn : Type :=
| ValueError
| AssertionError
| IndexError
| APIError (msg : string).

Definition exn_str (e : exn) : string :=
  match e with
  | ValueError => "ValueError"
  | AssertionError => "AssertionError"
  | IndexError => "IndexError"
  | APIError msg => msg
  end.

(** A computation that returns or raises. *)
Inductive result (A : Type) : Type :=
| Ok (a : A)
| Raise (e : exn).

Arguments Ok {A} a.
Arguments Raise {A} e.

Definition rbind {A B : Type} (r : result A) (k : A -> result B) : result B :=
  match r with
  | Ok a => k a
  | Raise e => Raise e
  end.

Notation "x <-! r ;; k" := (rbind r (fun x => k))
  (at level 61, r at next level, right associativity).

(** [try: body except Exception: return dflt]. *)
Definition try_except {A : Type} (body : result A) (dflt : A) : A :=
  match body with
  | Ok a => a
  | Raise _ => dflt
  end.

(** [str(n)] and [f"{n}"] for an [int]. *)
Definition str_of_int (n : Z) : string := NilZero.string_of_int (Z.to_int n).

(** [x in l] for a list of strings. *)
Definition str_in (x : string) (l : list string) : bool :=
  existsb (String.eqb x) l.

(** [not l] for a list. *)
Definition is_empty {A : Type} (l : list A) : bool :=
  match l with
  | [] => true
  | _ :: _ => false
  end.

(** [enumerate(l, start)]. *)
Fixpoint enumerate {A : Type} (start : nat) (l : list A) : list (nat * A) :=
  match l with
  | [] => []
  | x :: t => (start, x) :: enumerate (S start) t
  end.

(** The loop [for x in l: if p(x): x := f(x); found = True; break]: the
    first element that satisfies [p] is updated where it stands; the flag
    tells whether there was one. *)
Fixpoint update_first {A : Type} (p : A -> bool) (f : A -> A) (l : list A)
  : list A * bool :=
  match l with
  | [] => ([], false)
  | x :: t =>
      if p x then (f x :: t, true)
      else let (t', found) := update_first p f t in (x :: t', found)
  end.

(** [l[i]] with Python's negative indices. *)
Definition py_getitem {A : Type} (l : list A) (i : Z) : result A :=
  let n := Z.of_nat (List.length l) in
  let j := if i <? 0 then n + i else i in
  if (0 <=? j) && (j <? n) then
    match nth_error l (Z.to_nat j) with
    | Some a => Ok a
    | None => Raise IndexError
    end
  else Raise IndexError.

Definition nl : string := String "010" EmptyString.

(** ** constants.py *)

Module Constants.

Definition EMBEDDING_DIMENSION : Z := 1536.

Definition SYSTEM_PROMPT : string :=
  "あなたは経験豊富で優しい育児アドバイザーです。" +++ nl +++
  "親の悩みや困りごとに対して、共感的で肯定的なアドバイスを提供してください。" +++ nl +++
  nl +++
  "以下のルールを守ってください：" +++ nl +++
  "1. 親の気持ちに共感し、否定的な言葉は使わない" +++ nl +++
  "2. 具体的で実践的なアドバイスを提供する" +++ nl +++
  "3. 医療的な診断や判断は行わない（必要に応じて専門家への相談を勧める）" +++ nl +++
  "4. 子どもの個性や成長のペースを尊重する" +++ nl +++
  "5. 親自身のケアも大切であることを伝える" +++ nl.

(** [ADVICE_PROMPT_TEMPLATE.format(...)]: the template with its six slots
    filled. *)
Definition ADVICE_PROMPT_TEMPLATE_format
    (child_name : string) (age_months : Z) (age_display : string)
    (notes : string) (diary_context : string) (question : string) : string :=
  nl +++
  "【子どもの情報】" +++ nl +++
  "- 名前: " +++ child_name +++ nl +++
  "- 月齢: " +++ str_of_int age_months +++ "ヶ月（" +++ age_display +++ "）" +++ nl +++
  "- メモ: " +++ notes +++ nl +++
  nl +++
  "【関連する過去の日記】" +++ nl +++
  diary_context +++ nl +++
  nl +++
  "【親の相談内容】" +++ nl +++
  question +++ nl +++
  nl +++
  "上記の情報を踏まえて、親に寄り添った育児アドバイスを提供してください。" +++ nl.

Definition RAG_TOP_K : Z := 5.

(** [RAG_MIN_SIMILARITY = 0.5], as the fraction 1/2.  No function of
    [utils.py] imports it. *)
Definition RAG_MIN_SIMILARITY : Z * Z := (1, 2).

End Constants.

(** ** Records of the JSON stores *)

(** A [datetime.date]. *)
Record calendar_date : Type := mkDate {
  year : Z;
  month : Z;
  day : Z
}.

Record Child : Type := mkChild {
  child_id : string;
  name : string;
  birth_date : calendar_date;
  notes : option string
}.

Record Diary : Type := mkDiary {
  diary_id : string;
  child_ids : option (list string);
  date : string;
  content : string
}.

(** [d.get("child_ids", [])]. *)
Definition get_child_ids (d : Diary) : list string :=
  match child_ids d with
  | Some l => l
  | None => []
  end.

(** [child["child_id"] == child_id] and [d["diary_id"] == diary_id]. *)
Definition has_child_id (id : string) (child : Child) : bool :=
  String.eqb (child_id child) id.

Definition has_diary_id (id : string) (d : Diary) : bool :=
  String.eqb (diary_id d) id.

(** The three assignments of [update_child] to one record. *)
Definition set_child_fields (new_name : string) (new_birth_date : calendar_date)
    (new_notes : string) (child : Child) : Child :=
  mkChild (child_id child) new_name new_birth_date (Some new_notes).

(** The three assignments of [update_diary] to one record. *)
Definition set_diary_fields (new_child_ids : list string)
    (new_date new_content : string) (d : Diary) : Diary :=
  mkDiary (diary_id d) (Some new_child_ids) new_date new_content.

(** ** Age of a child *)

Definition calculate_age_months (birth_date today : calendar_date) : Z :=
  let months := (year today - year birth_date) * 12
                + (month today - month birth_date) in
  let months := if day today <? day birth_date then months - 1 else months in
  Z.max 0 months.

Definition format_age_display (months : Z) : string :=
  let years := months / 12 in
  let remaining_months := months mod 12 in
  if years =? 0 then
    str_of_int remaining_months +++ "ヶ月"
  else if remaining_months =? 0 then
    str_of_int years +++ "歳"
  else
    str_of_int years +++ "歳" +++ str_of_int remaining_months +++ "ヶ月".

(** ** float32 and the vectors of the embedding model *)

Record Float32 : Type := mkFloat32 {
  F :> Type;
  fzero : F;
  fadd : F -> F -> F;
  fsub : F -> F -> F;
  fmul : F -> F -> F;
  fleb : F -> F -> bool
}.

Arguments fzero {_}.
Arguments fadd {_} _ _.
Arguments fsub {_} _ _.
Arguments fmul {_} _ _.
Arguments fleb {_} _ _.

(** Comparison of floats is total once NaN is excluded. *)
Definition fleb_total (fl : Float32) : Prop :=
  forall a b : fl, fleb a b = true \/ fleb b a = true.

Section Utils.

Variable fl : Float32.

(** [create_embedding(text)]: the embedding model behind its own
    [try/except]; the empty list is the failure. *)
Variable create_embedding : string -> list fl.

(** [client.chat.completions.create(...)] followed by
    [response.choices[0].message.content]. *)
Variable chat_completion : string -> string -> result string.

Definition vec : Type := list fl.

Record EmbeddingRecord : Type := mkEmbeddingRecord {
  meta_diary_id : string;
  embedding : vec
}.

(** A flat index: its dimension and the rows added to it. *)
Record FaissIndex : Type := mkFaissIndex {
  index_d : nat;
  index_xb : list vec
}.

(** The files under [DATA_DIR].  The index file may be absent. *)
Record Store : Type := mkStore {
  CHILDREN_FILE : list Child;
  DIARIES_FILE : list Diary;
  EMBEDDINGS_METADATA_FILE : list EmbeddingRecord;
  EMBEDDINGS_INDEX_FILE : option FaissIndex
}.

(** *** Data access *)

Definition load_children (s : Store) : list Child := CHILDREN_FILE s.

Definition save_children (children : list Child) (s : Store) : Store :=
  mkStore children (DIARIES_FILE s) (EMBEDDINGS_METADATA_FILE s)
          (EMBEDDINGS_INDEX_FILE s).

Definition load_diaries (s : Store) : list Diary := DIARIES_FILE s.

Definition save_diaries (diaries : list Diary) (s : Store) : Store :=
  mkStore (CHILDREN_FILE s) diaries (EMBEDDINGS_METADATA_FILE s)
          (EMBEDDINGS_INDEX_FILE s).

Definition load_embeddings_metadata (s : Store) : list EmbeddingRecord :=
  EMBEDDINGS_METADATA_FILE s.

Definition save_embeddings_metadata (metadata : list EmbeddingRecord)
    (s : Store) : Store :=
  mkStore (CHILDREN_FILE s) (DIARIES_FILE s) metadata
          (EMBEDDINGS_INDEX_FILE s).

Definition write_index (index : FaissIndex) (s : Store) : Store :=
  mkStore (CHILDREN_FILE s) (DIARIES_FILE s) (EMBEDDINGS_METADATA_FILE s)
          (Some index).

(** *** numpy and faiss *)

(** [np.array(rows, dtype='float32')]: rows of unequal lengths raise. *)
Definition np_array (rows : list vec) : result (list vec) :=
  match rows with
  | [] => Ok []
  | r :: rest =>
      if forallb (fun r' => Nat.eqb (List.length r') (List.length r)) rest
      then Ok rows
      else Raise ValueError
  end.

(** [a.shape[1]]. *)
Definition shape1 (a : list vec) : result nat :=
  match a with
  | [] => Raise IndexError
  | r :: _ => Ok (List.length r)
  end.

Definition IndexFlatL2 (d : nat) : FaissIndex := mkFaissIndex d [].

(** [index.add(x)], with its [assert d == self.d]. *)
Definition index_add (index : FaissIndex) (x : list vec) : result FaissIndex :=
  d <-! shape1 x ;;
  if Nat.eqb d (index_d index)
  then Ok (mkFaissIndex (index_d index) (index_xb index ++ x))
  else Raise AssertionError.

(** Squared Euclidean distance, accumulated left to right. *)
Definition fvec_L2sqr (x y : vec) : fl :=
  fold_left (fun acc p => fadd acc (fmul (fsub (fst p) (snd p))
                                         (fsub (fst p) (snd p))))
            (combine x y) fzero.

(** Ranking of (label, distance) pairs by distance; among equal distances
    the smaller label comes first. *)
Fixpoint insert_by_distance (p : nat * fl) (l : list (nat * fl))
  : list (nat * fl) :=
  match l with
  | [] => [p]
  | h :: t =>
      if fleb (snd p) (snd h) then p :: l else h :: insert_by_distance p t
  end.

Definition sort_by_distance (l : list (nat * fl)) : list (nat * fl) :=
  fold_right insert_by_distance [] l.

(** The order of the ranking. *)
Definition closer (p q : nat * fl) : Prop := fleb (snd p) (snd q) = true.

(** The exact search of a flat L2 index for one query row, as the faiss
    documentation states it: the labels (positions) of the [k] rows nearest
    to the query, nearest first, filled with [-1] when the index holds fewer
    than [k] rows. *)
Definition nearest_labels (index : FaissIndex) (xq : vec) (k : nat) : list Z :=
  let ranked :=
    sort_by_distance (enumerate 0 (map (fvec_L2sqr xq) (index_xb index))) in
  let found := map (fun p => Z.of_nat (fst p)) (firstn k ranked) in
  found ++ repeat (-1) (k - List.length found).

(** [index.search(x, k)], the second component of its result: the
    [n, d = x.shape], [assert d == self.d] and [assert k > 0] of the Python
    wrapper, then one row of labels per query row. *)
Definition index_search (index : FaissIndex) (x : list vec) (k : Z)
  : result (list (list Z)) :=
  d <-! shape1 x ;;
  if negb (Nat.eqb d (index_d index)) then Raise AssertionError
  else if k <=? 0 then Raise AssertionError
  else Ok (map (fun xq => nearest_labels index xq (Z.to_nat k)) x).

(** *** Children *)

Definition add_child (uuid name : string) (birth_date : calendar_date)
    (notes : string) (s : Store) : Child * Store :=
  let children := load_children s in
  let child := mkChild uuid name birth_date (Some notes) in
  let children := children ++ [child] in
  (child, save_children children s).

Definition update_child (child_id name : string) (birth_date : calendar_date)
    (notes : string) (s : Store) : Store :=
  let children := load_children s in
  let children :=
    fst (update_first (has_child_id child_id)
                      (set_child_fields name birth_date notes) children) in
  save_children children s.

Definition delete_child (child_id : string) (s : Store) : Store :=
  let children := load_children s in
  let children :=
    filter (fun c => negb (has_child_id child_id c)) children in
  let s := save_children children s in
  let diaries := load_diaries s in
  let diaries :=
    filter (fun d => negb (str_in child_id (get_child_ids d))) diaries in
  save_diaries diaries s.

Definition get_child_by_id (child_id : string) (s : Store) : option Child :=
  let children := load_children s in
  find (has_child_id child_id) children.

(** *** Embeddings *)

Definition rebuild_faiss_index (s : Store) : Store :=
  try_except
    (let metadata := load_embeddings_metadata s in
     if is_empty metadata then Ok s
     else
       embeddings <-! np_array (map embedding metadata) ;;
       dimension <-! shape1 embeddings ;;
       index <-! index_add (IndexFlatL2 dimension) embeddings ;;
       Ok (write_index index s))
    s.

Definition update_diary_embedding (diary_id content : string) (s : Store)
  : Store :=
  let embedding := create_embedding content in
  if is_empty embedding then s
  else
    let metadata := load_embeddings_metadata s in
    let (metadata, found) :=
      update_first (fun item => String.eqb (meta_diary_id item) diary_id)
                   (fun item => mkEmbeddingRecord (meta_diary_id item) embedding)
                   metadata in
    let metadata :=
      if found then metadata
      else metadata ++ [mkEmbeddingRecord diary_id embedding] in
    let s := save_embeddings_metadata metadata s in
    rebuild_faiss_index s.

(** *** Diaries *)

Definition add_diary (uuid : string) (child_ids : list string)
    (date_str content : string) (s : Store) : Diary * Store :=
  let diaries := load_diaries s in
  let diary := mkDiary uuid (Some child_ids) date_str content in
  let diaries := diaries ++ [diary] in
  let s := save_diaries diaries s in
  let s := update_diary_embedding (diary_id diary) content s in
  (diary, s).

Definition update_diary (diary_id : string) (child_ids : list string)
    (date_str content : string) (s : Store) : Store :=
  let diaries := load_diaries s in
  let diaries :=
    fst (update_first (has_diary_id diary_id)
                      (set_diary_fields child_ids date_str content) diaries) in
  let s := save_diaries diaries s in
  update_diary_embedding diary_id content s.

Definition delete_diary (diary_id : string) (s : Store) : Store :=
  let diaries := load_diaries s in
  let diaries :=
    filter (fun d => negb (has_diary_id diary_id d)) diaries in
  let s := save_diaries diaries s in
  let metadata := load_embeddings_metadata s in
  let metadata :=
    filter (fun m => negb (String.eqb (meta_diary_id m) diary_id)) metadata in
  let s := save_embeddings_metadata metadata s in
  rebuild_faiss_index s.

Definition get_diaries_by_child (child_id : string) (s : Store) : list Diary :=
  let diaries := load_diaries s in
  filter (fun d => str_in child_id (get_child_ids d)) diaries.

(** *** Similarity search *)

(** The loop over [indices[0]] that turns labels back into diaries. *)
Fixpoint collect_results (filtered_metadata : list EmbeddingRecord)
    (child_diaries : list Diary) (indices : list Z) : result (list Diary) :=
  match indices with
  | [] => Ok []
  | idx :: rest =>
      if idx <? Z.of_nat (List.length filtered_metadata) then
        m <-! py_getitem filtered_metadata idx ;;
        match find (has_diary_id (meta_diary_id m)) child_diaries with
        | Some diary =>
            results <-! collect_results filtered_metadata child_diaries rest ;;
            Ok (diary :: results)
        | None => collect_results filtered_metadata child_diaries rest
        end
      else collect_results filtered_metadata child_diaries rest
  end.

(** The child's diaries and the embedding records that belong to them. *)
Definition child_diaries_of (child_id : string) (s : Store) : list Diary :=
  filter (fun d => str_in child_id (get_child_ids d)) (load_diaries s).

Definition filtered_metadata_of (child_id : string) (s : Store)
  : list EmbeddingRecord :=
  let child_diary_ids := map diary_id (child_diaries_of child_id s) in
  filter (fun m => str_in (meta_diary_id m) child_diary_ids)
         (load_embeddings_metadata s).

(** The body of the [try] block of [search_similar_diaries]. *)
Definition search_similar_diaries_body (query child_id : string) (top_k : Z)
    (s : Store) : result (list Diary) :=
  let query_embedding := create_embedding query in
  if is_empty query_embedding then Ok []
  else
    let metadata := load_embeddings_metadata s in
    if is_empty metadata then Ok []
    else
      let child_diaries := child_diaries_of child_id s in
      let filtered_metadata := filtered_metadata_of child_id s in
      if is_empty filtered_metadata then Ok []
      else
        embeddings <-! np_array (map embedding filtered_metadata) ;;
        query_vec <-! np_array [query_embedding] ;;
        dimension <-! shape1 embeddings ;;
        index <-! index_add (IndexFlatL2 dimension) embeddings ;;
        let k := Z.min top_k (Z.of_nat (List.length filtered_metadata)) in
        indices <-! index_search index query_vec k ;;
        indices_0 <-! py_getitem indices 0 ;;
        collect_results filtered_metadata child_diaries indices_0.

Definition search_similar_diaries (query child_id : string) (top_k : Z)
    (s : Store) : list Diary :=
  try_except (search_similar_diaries_body query child_id top_k s) [].

(** *** Advice *)

Definition diary_context_of (similar_diaries : list Diary) : string :=
  if is_empty similar_diaries then "関連する日記はありません。"
  else
    fold_left
      (fun ctx p =>
         ctx +++ nl +++ "【日記" +++ str_of_int (Z.of_nat (fst p)) +++ "】("
             +++ date (snd p) +++ ")" +++ nl +++ content (snd p) +++ nl)
      (enumerate 1 similar_diaries) "".

(** [child.get("notes", "特になし")]. *)
Definition get_notes (child : Child) : string :=
  match notes child with
  | Some n => n
  | None => "特になし"
  end.

(** The prompt [generate_advice] sends for a child that was found. *)
Definition user_prompt_of (question : string) (child : Child)
    (today : calendar_date) (s : Store) : string :=
  let age_months := calculate_age_months (birth_date child) today in
  let age_display := format_age_display age_months in
  let similar_diaries :=
    search_similar_diaries question (child_id child) Constants.RAG_TOP_K s in
  let diary_context := diary_context_of similar_diaries in
  Constants.ADVICE_PROMPT_TEMPLATE_format
    (name child) age_months age_display (get_notes child) diary_context
    question.

Definition generate_advice (question child_id : string)
    (today : calendar_date) (s : Store) : string :=
  match get_child_by_id child_id s with
  | None => "子ども情報が見つかりません。"
  | Some child =>
      let user_prompt := user_prompt_of question child today s in
      match chat_completion Constants.SYSTEM_PROMPT user_prompt with
      | Ok text => text
      | Raise e => "アドバイス生成中にエラーが発生しました: " +++ exn_str e
      end
  end.

(** *** The operations the pages of the application invoke *)

Inductive command : Type :=
| AddChild (uuid name : string) (birth_date : calendar_date) (notes : string)
| UpdateChild (child_id name : string) (birth_date : calendar_date)
              (notes : string)
| DeleteChild (child_id : string)
| AddDiary (uuid : string) (child_ids : list string) (date_str content : string)
| UpdateDiary (diary_id : string) (child_ids : list string)
              (date_str content : string)
| DeleteDiary (diary_id : string).

Definition run (c : command) (s : Store) : Store :=
  match c with
  | AddChild uuid name birth_date notes =>
      snd (add_child uuid name birth_date notes s)
  | UpdateChild child_id name birth_date notes =>
      update_child child_id name birth_date notes s
  | DeleteChild child_id => delete_child child_id s
  | AddDiary uuid child_ids date_str content =>
      snd (add_diary uuid child_ids date_str content s)
  | UpdateDiary diary_id child_ids date_str content =>
      update_diary diary_id child_ids date_str content s
  | DeleteDiary diary_id => delete_diary diary_id s
  end.

(** *** Notions the properties are stated with *)

(** The data directory as [initialize_app] creates it: three empty
    collections and no index file. *)
Definition initialize_app : Store := mkStore [] [] [] None.

(** The stores the application can be in. *)
Definition reachable (s : Store) : Prop :=
  exists cs : list command,
    s = fold_left (fun s' c => run c s') cs initialize_app.

(** The embedding model answers with vectors of one dimension [D] whenever
    it answers. *)
Definition fixed_dimension (D : nat) : Prop :=
  forall text, create_embedding text = []
               \/ List.length (create_embedding text) = D.

(** Every stored vector has dimension [D]. *)
Definition vectors_of_dimension (D : nat) (s : Store) : Prop :=
  Forall (fun m => List.length (embedding m) = D)
         (load_embeddings_metadata s).

(** At most one embedding record per diary identifier. *)
Definition unique_embedding_records (s : Store) : Prop :=
  NoDup (map meta_diary_id (load_embeddings_metadata s)).

(** The vector the metadata store holds for a diary. *)
Definition stored_embedding (s : Store) (d : Diary) : option vec :=
  option_map embedding
    (find (fun m => String.eqb (meta_diary_id m) (diary_id d))
          (load_embeddings_metadata s)).

(** The candidates of a query, as (position among the child's records,
    distance to the query) pairs, nearest first. *)
Definition ranked_candidates (query child_id : string) (s : Store)
  : list (nat * fl) :=
  sort_by_distance
    (enumerate 0 (map (fvec_L2sqr (create_embedding query))
                      (map embedding (filtered_metadata_of child_id s)))).

(** The diary the result loop appends for a ranked candidate: the one
    [next(...)] finds for the record at the candidate's position. *)
Definition picked (query child_id : string) (s : Store) (p : nat * fl)
    (d : Diary) : Prop :=
  exists m,
    nth_error (filtered_metadata_of child_id s) (fst p) = Some m
    /\ snd p = fvec_L2sqr (create_embedding query) (embedding m)
    /\ find (has_diary_id (meta_diary_id m)) (child_diaries_of child_id s)
       = Some d.

(** Every vector of the child's records has the dimension of the query's. *)
Definition same_dimension (query child_id : string) (s : Store) : Prop :=
  Forall (fun m => List.length (embedding m)
                   = List.length (create_embedding query))
         (filtered_metadata_of child_id s).

(** Squared distance from the query's embedding to a diary's stored one. *)
Definition distance_to_query (query : string) (s : Store) (d : Diary)
  : option fl :=
  option_map (fvec_L2sqr (create_embedding query)) (stored_embedding s d).

End Utils.

Arguments mkEmbeddingRecord {fl} meta_diary_id embedding.
Arguments meta_diary_id {fl} e.
Arguments embedding {fl} e.
Arguments mkFaissIndex {fl} index_d index_xb.
Arguments index_d {fl} f.
Arguments index_xb {fl} f.
Arguments mkStore {fl} _ _ _ _.
Arguments CHILDREN_FILE {fl} s.
Arguments DIARIES_FILE {fl} s.
Arguments EMBEDDINGS_METADATA_FILE {fl} s.
Arguments EMBEDDINGS_INDEX_FILE {fl} s.
Arguments load_children {fl} s.
Arguments save_children {fl} children s.
Arguments load_diaries {fl} s.
Arguments save_diaries {fl} diaries s.
Arguments load_embeddings_metadata {fl} s.
Arguments save_embeddings_metadata {fl} metadata s.
Arguments write_index {fl} index s.
Arguments np_array {fl} rows.
Arguments shape1 {fl} a.
Arguments IndexFlatL2 {fl} d.
Arguments index_add {fl} index x.
Arguments fvec_L2sqr {fl} x y.
Arguments insert_by_distance {fl} p l.
Arguments sort_by_distance {fl} l.
Arguments closer {fl} p q.
Arguments nearest_labels {fl} index xq k.
Arguments index_search {fl} index x k.
Arguments add_child {fl} uuid name birth_date notes s.
Arguments update_child {fl} child_id name birth_date notes s.
Arguments delete_child {fl} child_id s.
Arguments get_child_by_id {fl} child_id s.
Arguments rebuild_faiss_index {fl} s.
Arguments update_diary_embedding {fl} create_embedding diary_id content s.
Arguments add_diary {fl} create_embedding uuid child_ids date_str content s.
Arguments update_diary {fl} create_embedding diary_id child_ids date_str content s.
Arguments delete_diary {fl} diary_id s.
Arguments get_diaries_by_child {fl} child_id s.
Arguments collect_results {fl} filtered_metadata child_diaries indices.
Arguments child_diaries_of {fl} child_id s.
Arguments filtered_metadata_of {fl} child_id s.
Arguments search_similar_diaries_body {fl} create_embedding query child_id top_k s.
Arguments search_similar_diaries {fl} create_embedding query child_id top_k s.
Arguments user_prompt_of {fl} create_embedding question child today s.
Arguments generate_advice {fl} create_embedding chat_completion question child_id today s.
Arguments run {fl} create_embedding c s.
Arguments initialize_app {fl}.
Arguments reachable {fl} create_embedding s.
Arguments fixed_dimension {fl} create_embedding D.
Arguments vectors_of_dimension {fl} D s.
Arguments unique_embedding_records {fl} s.
Arguments ranked_candidates {fl} create_embedding query child_id s.
Arguments picked {fl} create_embedding query child_id s p d.
Arguments same_dimension {fl} create_embedding query child_id s.
Arguments stored_embedding {fl} s d.
Arguments distance_to_query {fl} create_embedding query s d.

(** ** Dates in order *)

(** [t <= t'] for two [datetime.date] values. *)
Definition date_le (t t' : calendar_date) : Prop :=
  year t < year t'
  \/ (year t = year t'
      /\ (month t < month t' \/ (month t = month t' /\ day t <= day t'))).

(** The month is one of the twelve. *)
Definition month_in_range (t : calendar_date) : Prop := 1 <= month t <= 12.

(** ** components.py: what the pages compute from the stores *)

(** [sorted(diaries, key=lambda x: x['date'], reverse=True)]: newest first;
    diaries of one date keep the order they had. *)
Fixpoint insert_by_date (d : Diary) (l : list Diary) : list Diary :=
  match l with
  | [] => [d]
  | h :: t =>
      if String.leb (date h) (date d) then d :: l else h :: insert_by_date d t
  end.

Definition sorted_by_date_desc (diaries : list Diary) : list Diary :=
  fold_right insert_by_date [] diaries.

(** The order of that list. *)
Definition not_older (a b : Diary) : Prop := String.leb (date b) (date a) = true.

(** A [dict] from strings to strings, in insertion order: [d[k] = v] and
    [d.get(k)]. *)
Fixpoint dict_set (k v : string) (d : list (string * string))
  : list (string * string) :=
  match d with
  | [] => [(k, v)]
  | (k', v') :: t =>
      if String.eqb k' k then (k', v) :: t else (k', v') :: dict_set k v t
  end.

Fixpoint dict_get (k : string) (d : list (string * string)) : option string :=
  match d with
  | [] => None
  | (k', v') :: t => if String.eqb k' k then Some v' else dict_get k t
  end.

(** [{child['name']: child['child_id'] for child in children}]. *)
Definition child_options (children : list Child) : list (string * string) :=
  fold_left (fun d child => dict_set (name child) (child_id child) d)
            children [].

(** [[child_options[name] for name in selected_children]]; [None] is the
    [KeyError] of a name that is no key. *)
Fixpoint selected_child_ids (options : list (string * string))
    (selected_children : list string) : option (list string) :=
  match selected_children with
  | [] => Some []
  | n :: rest =>
      match dict_get n options, selected_child_ids options rest with
      | Some id, Some ids => Some (id :: ids)
      | _, _ => None
      end
  end.

Section Components.

Variable fl : Float32.
Variable create_embedding : string -> list fl.

(** The diaries the advice page lists under the form: the newest five of
    the selected child. *)
Definition recent_child_diaries (child_id : string) (s : Store fl)
  : list Diary :=
  firstn 5 (sorted_by_date_desc (get_diaries_by_child child_id s)).

(** The names [show_diary_list] joins in the title of a diary: one for each
    referenced child that [get_child_by_id] finds.  [None] is the [KeyError]
    of [diary['child_ids']] on a record without the key. *)
Definition child_names_of (diary : Diary) (s : Store fl)
  : option (list string) :=
  match child_ids diary with
  | None => None
  | Some ids =>
      Some (flat_map (fun id => match get_child_by_id id s with
                                | Some child => [name child]
                                | None => []
                                end) ids)
  end.

(** The submit branch of [show_diary_form]: the diary is added when a child
    is selected and the content is not empty; otherwise the form shows an
    error and the store stays as it is.  [None] is the [KeyError] of a
    selected name that is no key of [child_options]. *)
Definition submit_diary_form (uuid : string) (selected_children : list string)
    (diary_date content : string) (s : Store fl) : option (Store fl) :=
  let children := load_children s in
  let options := child_options children in
  if negb (is_empty selected_children) && negb (String.eqb content "") then
    match selected_child_ids options selected_children with
    | Some ids => Some (snd (add_diary create_embedding uuid ids diary_date
                                       content s))
    | None => None
    end
  else Some s.

(** *** Notions the properties are stated with *)

(** The persisted index holds the stored vectors, row for row. *)
Definition index_in_sync (D : nat) (s : Store fl) : Prop :=
  load_embeddings_metadata s <> [] ->
  EMBEDDINGS_INDEX_FILE s
  = Some (mkFaissIndex D (map embedding (load_embeddings_metadata s))).

(** A child with this identifier is registered. *)
Definition registered (s : Store fl) (id : string) : Prop :=
  In id (map child_id (load_children s)).

(** Every child a diary references is registered. *)
Definition references_registered (s : Store fl) : Prop :=
  Forall (fun d => Forall (registered s) (get_child_ids d)) (load_diaries s).

(** The children a command attaches to a diary are registered. *)
Definition attaches_registered (s : Store fl) (c : command) : Prop :=
  match c with
  | AddDiary _ ids _ _ => Forall (registered s) ids
  | UpdateDiary _ ids _ _ => Forall (registered s) ids
  | _ => True
  end.

End Components.

Arguments recent_child_diaries {fl} child_id s.
Arguments child_names_of {fl} diary s.
Arguments submit_diary_form {fl} create_embedding uuid selected_children
  diary_date content s.
Arguments index_in_sync {fl} D s.
Arguments registered {fl} s id.
Arguments references_registered {fl} s.
Arguments attaches_registered {fl} s c.

(** ** initialize.py *)

Module Initialize.

Section Files.

Variable fl : Float32.

(** The data directory, file by file; [None] is a file that does not
    exist. *)
Record DataDir : Type := mkDataDir {
  children_json : option (list Child);
  diaries_json : option (list Diary);
  embeddings_metadata_json : option (list (EmbeddingRecord fl));
  embeddings_faiss : option (FaissIndex fl)
}.

(** [if not os.path.exists(f): json.dump([], f)]. *)
Definition create_if_missing {A : Type} (f : option (list A))
  : option (list A) :=
  match f with
  | Some content => Some content
  | None => Some []
  end.

Definition initialize_app (d : DataDir) : DataDir :=
  mkDataDir (create_if_missing (children_json d))
            (create_if_missing (diaries_json d))
            (create_if_missing (embeddings_metadata_json d))
            (embeddings_faiss d).

(** What the [load_*] functions of [utils.py] read from the directory:
    [load_children] and [load_diaries] open their file and so fail on a
    missing one; [load_embeddings_metadata] checks [os.path.exists] and
    reads a missing file as the empty list. *)
Definition open_store (d : DataDir) : option (Store fl) :=
  match children_json d, diaries_json d with
  | Some children, Some diaries =>
      Some (mkStore children diaries
                    (match embeddings_metadata_json d with
                     | Some metadata => metadata
                     | None => []
                     end)
                    (embeddings_faiss d))
  | _, _ => None
  end.

(** A directory without any file. *)
Definition no_files : DataDir := mkDataDir None None None None.

End Files.

Arguments mkDataDir {fl} _ _ _ _.
Arguments children_json {fl} d.
Arguments diaries_json {fl} d.
Arguments embeddings_metadata_json {fl} d.
Arguments embeddings_faiss {fl} d.
Arguments initialize_app {fl} d.
Arguments open_store {fl} d.
Arguments no_files {fl}.

End Initialize.

(** ** A concrete instance: integer vectors and a small store *)

Module Sample.

(** Integers with their usual order stand in for float32. *)
Definition Zfloat : Float32 := mkFloat32 Z 0 Z.add Z.sub Z.mul Z.leb.

(** An embedding model that knows four texts and fails on the others. *)
Definition embed (text : string) : list Zfloat :=
  if String.eqb text "夜泣きがひどい" then [3; 4]
  else if String.eqb text "離乳食を始めた" then [1; 0]
  else if String.eqb text "公園で遊んだ" then [0; 7]
  else if String.eqb text "寝かしつけのコツは？" then [0; 0]
  else [].

(** The same model, except that it answers one text with a vector of
    another dimension. *)
Definition embed_mixed (text : string) : list Zfloat :=
  if String.eqb text "long" then [1; 2; 3] else embed text.

(** A chat model that always fails. *)
Definition chat (system_prompt user_prompt : string) : result string :=
  Raise (APIError "quota").

(** A chat model that answers with the prompt it was given. *)
Definition echo (system_prompt user_prompt : string) : result string :=
  Ok user_prompt.

Definition taro : Child :=
  mkChild "c1" "太郎" (mkDate 2023 1 15) (Some "").

Definition hana : Child :=
  mkChild "c2" "花" (mkDate 2024 3 20) (Some "人見知り").

Definition d1 : Diary := mkDiary "d1" (Some ["c1"]) "2024-01-05" "夜泣きがひどい".
Definition d2 : Diary :=
  mkDiary "d2" (Some ["c1"; "c2"]) "2024-02-01" "離乳食を始めた".
Definition d3 : Diary := mkDiary "d3" (Some ["c2"]) "2024-02-10" "公園で遊んだ".

Definition record (id : string) (v : list Z) : EmbeddingRecord Zfloat :=
  @mkEmbeddingRecord Zfloat id v.

(** Two children are registered, the first one with empty notes, and three
    diaries are written. *)
Definition history : list command :=
  [ AddChild "c1" "太郎" (mkDate 2023 1 15) "";
    AddChild "c2" "花" (mkDate 2024 3 20) "人見知り";
    AddDiary "d1" ["c1"] "2024-01-05" "夜泣きがひどい";
    AddDiary "d2" ["c1"; "c2"] "2024-02-01" "離乳食を始めた";
    AddDiary "d3" ["c2"] "2024-02-10" "公園で遊んだ" ].

Definition store0 : Store Zfloat :=
  fold_left (fun s' c => run embed c s') history initialize_app.

(** A store whose records for [c1] have vectors of unequal lengths. *)
Definition store_ragged : Store Zfloat :=
  mkStore [taro] [d1; d2] [record "d1" [3; 4]; record "d2" [1; 0; 2]] None.

Definition question : string := "寝かしつけのコツは？".

(** The store after the only diary of a fresh directory was written. *)
Definition store_one : Store Zfloat :=
  run embed (AddDiary "d1" ["c1"] "2024-01-05" "夜泣きがひどい") initialize_app.

End Sample.

(** * Properties *)

(** ** Python helpers *)

Lemma str_in_iff (x : string) (l : list string) :
  str_in x l = true <-> In x l.
Proof.
  unfold str_in. rewrite existsb_exists. split.
  - intros [y [Hy Heq]]. apply String.eqb_eq in Heq. now subst.
  - intros H. exists x. split; [assumption | apply String.eqb_refl].
Qed.

Lemma rbind_Ok {A B : Type} (r : result A) (k : A -> result B) (b : B) :
  rbind r k = Ok b -> exists a, r = Ok a /\ k a = Ok b.
Proof.
  destruct r as [a | e]; simpl; intros H; [now exists a | discriminate].
Qed.

Lemma is_empty_false {A : Type} (l : list A) :
  is_empty l = false <-> (0 < List.length l)%nat.
Proof. destruct l; simpl; split; intros; try congruence; lia. Qed.

Lemma py_getitem_nonneg {A : Type} (l : list A) (i : nat) (a : A) :
  nth_error l i = Some a -> py_getitem l (Z.of_nat i) = Ok a.
Proof.
  intros H. unfold py_getitem.
  assert (Hlt : (i < List.length l)%nat)
    by (apply nth_error_Some; congruence).
  destruct (Z.of_nat i <? 0) eqn:Hneg; [lia |].
  replace ((0 <=? Z.of_nat i) && (Z.of_nat i <? Z.of_nat (List.length l)))
    with true by (symmetry; apply andb_true_iff; split; lia).
  rewrite Nat2Z.id, H. reflexivity.
Qed.

Lemma py_getitem_singleton {A : Type} (a : A) : py_getitem [a] 0 = Ok a.
Proof. reflexivity. Qed.

(** Destructs the binds of a computation known to have returned. *)
Ltac bind_inv H :=
  repeat match type of H with
         | rbind _ _ = Ok _ =>
             let a := fresh "a" in
             let Ha := fresh "Ha" in
             apply rbind_Ok in H; destruct H as [a [Ha H]]
         end.

(** ** Lists *)

Lemma enumerate_length {A : Type} (l : list A) (start : nat) :
  List.length (enumerate start l) = List.length l.
Proof.
  revert start. induction l as [| x t IH]; simpl; intros start;
    [reflexivity | now rewrite IH].
Qed.

Lemma enumerate_In {A : Type} (l : list A) (start i : nat) (x : A) :
  In (i, x) (enumerate start l) ->
  (start <= i)%nat /\ nth_error l (i - start) = Some x.
Proof.
  revert start. induction l as [| y t IH]; simpl; intros start H; [easy |].
  destruct H as [H | H].
  - injection H as <- <-. rewrite Nat.sub_diag. split; [lia | reflexivity].
  - apply IH in H. destruct H as [Hle Hn]. split; [lia |].
    replace (i - start)%nat with (S (i - S start)) by lia. exact Hn.
Qed.

Lemma In_enumerate {A : Type} (l : list A) (start i : nat) (x : A) :
  nth_error l i = Some x -> In ((start + i)%nat, x) (enumerate start l).
Proof.
  revert start i. induction l as [| y t IH]; intros start [| i]; simpl;
    try discriminate.
  - intros [= ->]. left. f_equal. lia.
  - intros H. right. replace (start + S i)%nat with (S start + i)%nat by lia.
    now apply IH.
Qed.

Lemma In_firstn {A : Type} (n : nat) (l : list A) (x : A) :
  In x (firstn n l) -> In x l.
Proof.
  intros H. rewrite <- (firstn_skipn n l). apply in_or_app. now left.
Qed.

Lemma Sorted_firstn {A : Type} (R : A -> A -> Prop) (l : list A) (n : nat) :
  Sorted R l -> Sorted R (firstn n l).
Proof.
  revert l. induction n as [| n IH]; intros l H; [constructor |].
  destruct H as [| a l Hs Hhd]; simpl; [constructor |].
  constructor; [now apply IH |].
  destruct Hhd as [| b l' Hab]; destruct n; simpl; constructor. exact Hab.
Qed.

Lemma Sorted_map {A B : Type} (R : A -> A -> Prop) (R' : B -> B -> Prop)
    (f : A -> B) (l : list A) :
  (forall a b, R a b -> R' (f a) (f b)) -> Sorted R l -> Sorted R' (map f l).
Proof.
  intros Hf. induction 1 as [| a l Hs IH Hhd]; simpl; constructor; [assumption |].
  destruct Hhd; simpl; constructor. now apply Hf.
Qed.

Lemma Forall2_In_l {A B : Type} (R : A -> B -> Prop) (l : list A) (l' : list B)
    (x : A) :
  Forall2 R l l' -> In x l -> exists y, In y l' /\ R x y.
Proof.
  induction 1 as [| a b l l' Hab _ IH]; simpl; [easy |].
  intros [-> | Hin].
  - exists b. tauto.
  - destruct (IH Hin) as [y [Hy HR]]. exists y. tauto.
Qed.

Lemma find_unique {A : Type} (key : A -> string) (l : list A) (a : A) :
  NoDup (map key l) -> In a l ->
  find (fun x => String.eqb (key x) (key a)) l = Some a.
Proof.
  induction l as [| x t IH]; simpl; intros Hnd Hin; [easy |].
  inversion Hnd as [| k ks Hnotin Hnd']; subst.
  destruct Hin as [-> | Hin].
  - now rewrite String.eqb_refl.
  - destruct (String.eqb (key x) (key a)) eqn:Heq.
    + apply String.eqb_eq in Heq. exfalso. apply Hnotin. rewrite Heq.
      now apply in_map.
    + now apply IH.
Qed.

Lemma find_present {A : Type} (key : A -> string) (l : list A) (k : string) :
  In k (map key l) -> exists a, find (fun x => String.eqb (key x) k) l = Some a.
Proof.
  intros Hin. apply in_map_iff in Hin. destruct Hin as [a [Hk Ha]].
  destruct (find (fun x => String.eqb (key x) k) l) as [b |] eqn:Hf;
    [now exists b |].
  apply (find_none _ _ Hf) in Ha. rewrite Hk, String.eqb_refl in Ha.
  discriminate.
Qed.

(** ** The update loop *)

Lemma update_first_split {A : Type} (p : A -> bool) (f : A -> A) (l : list A) :
  match update_first p f l with
  | (l', true) =>
      exists l1 x l2,
        l = l1 ++ x :: l2 /\ p x = true /\ Forall (fun y => p y = false) l1
        /\ l' = l1 ++ f x :: l2
  | (l', false) => l' = l /\ Forall (fun y => p y = false) l
  end.
Proof.
  induction l as [| x t IH]; simpl; [split; [reflexivity | constructor] |].
  destruct (p x) eqn:Hp.
  - exists [], x, t. repeat split; [exact Hp | constructor].
  - destruct (update_first p f t) as [t' [|]].
    + destruct IH as [l1 [y [l2 [-> [Hy [Hl1 ->]]]]]].
      exists (x :: l1), y, l2. repeat split; try assumption.
      now constructor.
    + destruct IH as [-> Hall]. split; [reflexivity | now constructor].
Qed.

Lemma update_first_keys {A K : Type} (key : A -> K) (p : A -> bool)
    (f : A -> A) (l : list A) :
  (forall x, key (f x) = key x) ->
  map key (fst (update_first p f l)) = map key l.
Proof.
  intros Hkey. induction l as [| x t IH]; simpl; [reflexivity |].
  destruct (p x); simpl; [now rewrite Hkey |].
  destruct (update_first p f t) as [t' found]. simpl in *. now rewrite IH.
Qed.

Lemma update_first_Forall {A : Type} (P : A -> Prop) (p : A -> bool)
    (f : A -> A) (l : list A) :
  (forall x, P (f x)) -> Forall P l -> Forall P (fst (update_first p f l)).
Proof.
  intros Hf. induction 1 as [| x t Hx Ht IH]; simpl; [constructor |].
  destruct (p x); simpl; [now constructor |].
  destruct (update_first p f t) as [t' found]. simpl in *. now constructor.
Qed.

Section Properties.

Variable fl : Float32.
Variable create_embedding : string -> list fl.

(** *** Ranking by distance *)

Lemma insert_by_distance_length (p : nat * fl) (l : list (nat * fl)) :
  List.length (insert_by_distance p l) = S (List.length l).
Proof.
  induction l as [| h t IH]; simpl; [reflexivity |].
  destruct (fleb (snd p) (snd h)); simpl; [reflexivity | now rewrite IH].
Qed.

Lemma sort_by_distance_length (l : list (nat * fl)) :
  List.length (sort_by_distance l) = List.length l.
Proof.
  induction l as [| h t IH]; simpl; [reflexivity |].
  now rewrite insert_by_distance_length, IH.
Qed.

Lemma insert_by_distance_In (p x : nat * fl) (l : list (nat * fl)) :
  In x (insert_by_distance p l) <-> x = p \/ In x l.
Proof.
  induction l as [| h t IH]; simpl; [intuition congruence |].
  destruct (fleb (snd p) (snd h)); simpl; [intuition congruence |].
  rewrite IH. intuition congruence.
Qed.

Lemma sort_by_distance_In (x : nat * fl) (l : list (nat * fl)) :
  In x (sort_by_distance l) <-> In x l.
Proof.
  induction l as [| h t IH]; simpl; [tauto |].
  rewrite insert_by_distance_In, IH. intuition congruence.
Qed.

Lemma insert_by_distance_Sorted (p : nat * fl) (l : list (nat * fl)) :
  fleb_total fl -> Sorted closer l -> Sorted closer (insert_by_distance p l).
Proof.
  intros Htot. induction 1 as [| h t Hs IH Hhd]; simpl.
  - repeat constructor.
  - destruct (fleb (snd p) (snd h)) eqn:Hle.
    + constructor; [now constructor | now constructor].
    + constructor; [exact IH |].
      assert (Hhp : closer h p).
      { unfold closer. destruct (Htot (snd p) (snd h)); congruence. }
      destruct Hhd as [| b t' Hhb]; simpl; [now constructor |].
      destruct (fleb (snd p) (snd b)); now constructor.
Qed.

Lemma sort_by_distance_Sorted (l : list (nat * fl)) :
  fleb_total fl -> Sorted closer (sort_by_distance l).
Proof.
  intros Htot. induction l as [| h t IH]; simpl;
    [constructor | now apply insert_by_distance_Sorted].
Qed.

Lemma ranked_candidates_length (query child_id : string) (s : Store fl) :
  List.length (ranked_candidates create_embedding query child_id s)
  = List.length (filtered_metadata_of child_id s).
Proof.
  unfold ranked_candidates.
  now rewrite sort_by_distance_length, enumerate_length, !length_map.
Qed.

Lemma ranked_candidates_In (query child_id : string) (s : Store fl)
    (p : nat * fl) :
  In p (ranked_candidates create_embedding query child_id s) <->
  exists m, nth_error (filtered_metadata_of child_id s) (fst p) = Some m
            /\ snd p = fvec_L2sqr (create_embedding query) (embedding m).
Proof.
  unfold ranked_candidates. rewrite sort_by_distance_In, map_map.
  destruct p as [i x]. simpl. split.
  - intros H. apply enumerate_In in H. destruct H as [_ H].
    rewrite Nat.sub_0_r, nth_error_map in H.
    destruct (nth_error (filtered_metadata_of child_id s) i) as [m |];
      simpl in H; [| discriminate].
    exists m. split; congruence.
  - intros [m [Hn ->]].
    apply (In_enumerate _ 0 i). now rewrite nth_error_map, Hn.
Qed.

(** *** numpy and faiss *)

Lemma np_array_Ok (rows a : list (vec fl)) : np_array rows = Ok a -> a = rows.
Proof.
  unfold np_array. destruct rows as [| r rest]; [congruence |].
  match goal with |- context [forallb ?f rest] => destruct (forallb f rest) end;
    congruence.
Qed.

Lemma np_array_uniform (rows : list (vec fl)) (d : nat) :
  Forall (fun r => List.length r = d) rows -> np_array rows = Ok rows.
Proof.
  unfold np_array. destruct rows as [| r rest]; [reflexivity |].
  intros H. inversion H as [| r' rest' Hr Hrest]; subst.
  match goal with
  | |- context [forallb ?f rest] => replace (forallb f rest) with true
  end; [reflexivity |].
  symmetry. apply forallb_forall. intros r' Hin.
  rewrite Forall_forall in Hrest. apply Nat.eqb_eq. now apply Hrest.
Qed.

Lemma np_array_shape (rows a : list (vec fl)) (d : nat) :
  np_array rows = Ok a -> shape1 rows = Ok d ->
  Forall (fun r => List.length r = d) rows.
Proof.
  unfold np_array, shape1. destruct rows as [| r rest]; [discriminate |].
  match goal with
  | |- context [forallb ?f rest] => destruct (forallb f rest) eqn:Hall
  end; [| discriminate].
  intros _ [= <-]. constructor; [reflexivity |].
  apply Forall_forall. intros r' Hin.
  rewrite forallb_forall in Hall. apply Nat.eqb_eq. now apply Hall.
Qed.

Lemma shape1_uniform (rows : list (vec fl)) (d : nat) :
  is_empty rows = false -> Forall (fun r => List.length r = d) rows ->
  shape1 rows = Ok d.
Proof.
  destruct rows as [| r rest]; [discriminate |].
  intros _ H. inversion H; subst. reflexivity.
Qed.

(** The search with a single query row. *)
Lemma index_search_one (index : FaissIndex fl) (xq : vec fl) (k : Z) :
  index_search index [xq] k =
  if Nat.eqb (List.length xq) (index_d index) && (0 <? k)
  then Ok [nearest_labels index xq (Z.to_nat k)]
  else Raise AssertionError.
Proof.
  unfold index_search. cbn [shape1 rbind].
  destruct (Nat.eqb (List.length xq) (index_d index)); simpl; [| reflexivity].
  destruct (k <=? 0) eqn:Hk, (0 <? k) eqn:Hk'; try reflexivity; lia.
Qed.

(** Asked for no more rows than the index holds, the search pads nothing. *)
Lemma nearest_labels_within (index : FaissIndex fl) (xq : vec fl) (k : nat) :
  (k <= List.length (index_xb index))%nat ->
  nearest_labels index xq k
  = map (fun p => Z.of_nat (fst p))
        (firstn k (sort_by_distance
                     (enumerate 0 (map (fvec_L2sqr xq) (index_xb index))))).
Proof.
  intros Hk. unfold nearest_labels. cbv zeta.
  rewrite length_map, length_firstn, sort_by_distance_length, enumerate_length,
    length_map.
  replace (k - Nat.min k (List.length (index_xb index)))%nat with 0%nat by lia.
  apply app_nil_r.
Qed.

(** *** The loop that maps labels back to diaries *)

Lemma collect_results_incl (fm : list (EmbeddingRecord fl)) (cd : list Diary)
    (indices : list Z) :
  forall res, collect_results fm cd indices = Ok res -> incl res cd.
Proof.
  induction indices as [| idx rest IH]; simpl; intros res H.
  - injection H as <-. intros d [].
  - destruct (idx <? Z.of_nat (List.length fm)); [| now apply IH].
    apply rbind_Ok in H. destruct H as [m [_ H]].
    destruct (find (has_diary_id (meta_diary_id m)) cd) as [diary |] eqn:Hf;
      [| now apply IH].
    apply rbind_Ok in H. destruct H as [results [Hr H]].
    injection H as <-. intros d [<- | Hd].
    + apply find_some in Hf. tauto.
    + now apply (IH results).
Qed.

Lemma search_results_are_child_diaries (query child_id : string) (top_k : Z)
    (s : Store fl) :
  incl (search_similar_diaries create_embedding query child_id top_k s)
       (child_diaries_of child_id s).
Proof.
  unfold search_similar_diaries, try_except.
  destruct (search_similar_diaries_body create_embedding query child_id top_k s) as [res | e] eqn:H;
    [| intros d []].
  unfold search_similar_diaries_body in H.
  destruct (is_empty (create_embedding query));
    [injection H as <-; intros d [] |].
  destruct (is_empty (load_embeddings_metadata s));
    [injection H as <-; intros d [] |].
  destruct (is_empty (filtered_metadata_of child_id s));
    [injection H as <-; intros d [] |].
  bind_inv H.
  eapply collect_results_incl; eassumption.
Qed.

Lemma candidate_diary_found (child_id : string) (s : Store fl)
    (m : EmbeddingRecord fl) :
  In m (filtered_metadata_of child_id s) ->
  exists d, find (has_diary_id (meta_diary_id m)) (child_diaries_of child_id s)
            = Some d.
Proof.
  unfold filtered_metadata_of. intros H. apply filter_In in H.
  destruct H as [_ H]. apply str_in_iff in H.
  apply (find_present diary_id) in H. exact H.
Qed.

Lemma collect_results_valid (query child_id : string) (s : Store fl)
    (pairs : list (nat * fl)) :
  incl pairs (ranked_candidates create_embedding query child_id s) ->
  exists res,
    collect_results (filtered_metadata_of child_id s)
                    (child_diaries_of child_id s)
                    (map (fun p => Z.of_nat (fst p)) pairs) = Ok res
    /\ Forall2 (picked create_embedding query child_id s) pairs res.
Proof.
  induction pairs as [| p rest IH]; simpl; intros Hincl.
  - exists []. split; constructor.
  - destruct (proj1 (ranked_candidates_In query child_id s p)
                    (Hincl p (or_introl eq_refl))) as [m [Hm Hdist]].
    destruct (candidate_diary_found child_id s m (nth_error_In _ _ Hm))
      as [d Hd].
    destruct IH as [res [Hres Hall]];
      [intros p' Hp'; apply Hincl; now right |].
    assert (Hlt : (fst p < List.length (filtered_metadata_of child_id s))%nat)
      by (apply nth_error_Some; congruence).
    replace (Z.of_nat (fst p)
             <? Z.of_nat (List.length (filtered_metadata_of child_id s)))
      with true by (symmetry; apply Z.ltb_lt; lia).
    rewrite (py_getitem_nonneg _ _ _ Hm). simpl. rewrite Hd, Hres. simpl.
    exists (d :: res). split; [reflexivity |].
    constructor; [now exists m | exact Hall].
Qed.

Lemma filtered_nonempty_metadata_nonempty (child_id : string) (s : Store fl) :
  is_empty (filtered_metadata_of child_id s) = false ->
  is_empty (load_embeddings_metadata s) = false.
Proof.
  unfold filtered_metadata_of.
  destruct (load_embeddings_metadata s); simpl; congruence.
Qed.

(** What the pipeline computes once the three early returns are passed. *)
Lemma search_body_pipeline (query child_id : string) (top_k : Z)
    (s : Store fl) (res : list Diary) :
  is_empty (create_embedding query) = false ->
  is_empty (filtered_metadata_of child_id s) = false ->
  search_similar_diaries_body create_embedding query child_id top_k s = Ok res ->
  let k := Z.min top_k (Z.of_nat (List.length (filtered_metadata_of child_id s))) in
  0 < k
  /\ same_dimension create_embedding query child_id s
  /\ Forall2 (picked create_embedding query child_id s)
             (firstn (Z.to_nat k)
                     (ranked_candidates create_embedding query child_id s))
             res.
Proof.
  intros Hq Hfm H k.
  unfold search_similar_diaries_body in H.
  rewrite Hq, (filtered_nonempty_metadata_nonempty _ _ Hfm), Hfm in H.
  bind_inv H.
  assert (Hdim := Ha). apply np_array_Ok in Ha, Ha0. subst a a0.
  apply (np_array_shape _ _ a1) in Hdim; [| exact Ha1].
  unfold index_add in Ha2. rewrite Ha1 in Ha2. simpl in Ha2.
  rewrite Nat.eqb_refl in Ha2. injection Ha2 as <-.
  rewrite index_search_one in Ha3. cbn [index_d] in Ha3.
  destruct (Nat.eqb (List.length (create_embedding query)) a1) eqn:Hd;
    [| discriminate].
  fold k in Ha3. destruct (0 <? k) eqn:Hk; [| discriminate].
  cbn [andb] in Ha3. injection Ha3 as <-.
  rewrite py_getitem_singleton in Ha4. injection Ha4 as <-.
  apply Nat.eqb_eq in Hd. apply Z.ltb_lt in Hk.
  rewrite nearest_labels_within in H
    by (cbn [index_xb]; rewrite length_map; unfold k; lia).
  cbn [index_xb] in H.
  fold (ranked_candidates create_embedding query child_id s) in H.
  split; [exact Hk |]. split.
  - unfold same_dimension. rewrite Forall_map in Hdim.
    eapply Forall_impl; [| exact Hdim]. simpl. intros m Hm. congruence.
  - destruct (collect_results_valid query child_id s
                (firstn (Z.to_nat k)
                   (ranked_candidates create_embedding query child_id s)))
      as [res' [Hres' Hall]].
    + intros p Hp. eapply In_firstn, Hp.
    + rewrite Hres' in H. injection H as <-. exact Hall.
Qed.

(** With vectors of one dimension and a positive [top_k] no step of the
    pipeline raises. *)
Lemma search_body_runs (query child_id : string) (top_k : Z) (s : Store fl) :
  is_empty (create_embedding query) = false ->
  is_empty (filtered_metadata_of child_id s) = false ->
  same_dimension create_embedding query child_id s ->
  0 < top_k ->
  exists res,
    search_similar_diaries_body create_embedding query child_id top_k s = Ok res.
Proof.
  intros Hq Hfm Hdim Hk.
  assert (Hrows : Forall (fun r => List.length r
                                   = List.length (create_embedding query))
                         (map embedding (filtered_metadata_of child_id s)))
    by (now apply Forall_map).
  assert (Hne : is_empty (map embedding (filtered_metadata_of child_id s))
                = false)
    by (destruct (filtered_metadata_of child_id s); [discriminate | reflexivity]).
  unfold search_similar_diaries_body.
  rewrite Hq, (filtered_nonempty_metadata_nonempty _ _ Hfm), Hfm.
  rewrite (np_array_uniform _ _ Hrows). cbn [rbind].
  replace (np_array [create_embedding query])
    with (Ok [create_embedding query]) by reflexivity.
  cbn [rbind]. unfold index_add.
  rewrite (shape1_uniform _ _ Hne Hrows). cbn [rbind IndexFlatL2 index_d index_xb].
  rewrite Nat.eqb_refl. cbn [rbind app].
  rewrite index_search_one. cbn [index_d].
  rewrite Nat.eqb_refl.
  set (k := Z.min top_k (Z.of_nat (List.length (filtered_metadata_of child_id s)))).
  assert (Hn : (0 < List.length (filtered_metadata_of child_id s))%nat)
    by (now apply is_empty_false).
  replace (0 <? k) with true by (symmetry; apply Z.ltb_lt; unfold k; lia).
  cbn [andb rbind]. rewrite py_getitem_singleton. cbn [rbind].
  rewrite nearest_labels_within
    by (cbn [index_xb]; rewrite length_map; unfold k; lia).
  cbn [index_xb].
  fold (ranked_candidates create_embedding query child_id s).
  destruct (collect_results_valid query child_id s
              (firstn (Z.to_nat k)
                 (ranked_candidates create_embedding query child_id s)))
    as [res [Hres _]].
  - intros p Hp. eapply In_firstn, Hp.
  - exists res. exact Hres.
Qed.

(** C1: every diary returned by [search_similar_diaries query child_id top_k]
    has [child_id] among its child identifiers, and a diary whose child
    identifiers exclude [child_id] is never returned. *)
Theorem search_only_returns_child_diaries (query child_id : string)
    (top_k : Z) (s : Store fl) :
  Forall (fun d => In child_id (get_child_ids d))
         (search_similar_diaries create_embedding query child_id top_k s)
  /\ (forall d, ~ In child_id (get_child_ids d) ->
                ~ In d (search_similar_diaries create_embedding query child_id top_k s)).
Proof.
  assert (Hall : forall d, In d (search_similar_diaries create_embedding query child_id top_k s)
                           -> In child_id (get_child_ids d)).
  { intros d Hd. apply search_results_are_child_diaries in Hd.
    unfold child_diaries_of in Hd. apply filter_In in Hd.
    now apply str_in_iff. }
  split.
  - apply Forall_forall. exact Hall.
  - intros d Hn Hd. apply Hn, Hall, Hd.
Qed.

(** *** The three early returns *)

Lemma search_body_early (query child_id : string) (top_k : Z) (s : Store fl) :
  is_empty (create_embedding query) = true
  \/ is_empty (filtered_metadata_of child_id s) = true ->
  search_similar_diaries_body create_embedding query child_id top_k s = Ok [].
Proof.
  unfold search_similar_diaries_body. intros [H | H].
  - now rewrite H.
  - rewrite H. destruct (is_empty (create_embedding query)); [reflexivity |].
    destruct (is_empty (load_embeddings_metadata s)); reflexivity.
Qed.

Lemma search_nonempty_inv (query child_id : string) (top_k : Z) (s : Store fl) :
  search_similar_diaries create_embedding query child_id top_k s <> [] ->
  is_empty (create_embedding query) = false
  /\ is_empty (filtered_metadata_of child_id s) = false
  /\ search_similar_diaries_body create_embedding query child_id top_k s
     = Ok (search_similar_diaries create_embedding query child_id top_k s).
Proof.
  unfold search_similar_diaries, try_except. intros Hne.
  destruct (is_empty (create_embedding query)) eqn:Hq.
  { rewrite search_body_early in Hne by now left. congruence. }
  destruct (is_empty (filtered_metadata_of child_id s)) eqn:Hfm.
  { rewrite search_body_early in Hne by now right. congruence. }
  destruct (search_similar_diaries_body create_embedding query child_id top_k s);
    [tauto | congruence].
Qed.

(** *** Distances of the returned diaries *)

Lemma picked_diary_id (query child_id : string) (s : Store fl)
    (p : nat * fl) (d : Diary) :
  picked create_embedding query child_id s p d ->
  exists m, In m (filtered_metadata_of child_id s)
            /\ diary_id d = meta_diary_id m
            /\ snd p = fvec_L2sqr (create_embedding query) (embedding m).
Proof.
  intros [m [Hm [Hdist Hf]]]. exists m.
  apply find_some in Hf. destruct Hf as [_ Hf]. apply String.eqb_eq in Hf.
  split; [eapply nth_error_In; eassumption | tauto].
Qed.

Lemma picked_distance (query child_id : string) (s : Store fl)
    (p : nat * fl) (d : Diary) :
  unique_embedding_records s ->
  picked create_embedding query child_id s p d ->
  distance_to_query create_embedding query s d = Some (snd p).
Proof.
  intros Hnd Hp. apply picked_diary_id in Hp.
  destruct Hp as [m [Hin [Hid Hdist]]].
  unfold filtered_metadata_of in Hin. apply filter_In in Hin.
  destruct Hin as [Hin _].
  unfold distance_to_query, stored_embedding. rewrite Hid.
  rewrite (find_unique meta_diary_id _ m Hnd Hin). simpl. now rewrite Hdist.
Qed.

Lemma picked_distances (query child_id : string) (s : Store fl)
    (pairs : list (nat * fl)) (res : list Diary) :
  unique_embedding_records s ->
  Forall2 (picked create_embedding query child_id s) pairs res ->
  Forall2 (fun d x => distance_to_query create_embedding query s d = Some x)
          res (map snd pairs).
Proof.
  intros Hnd. induction 1 as [| p d ps ds Hp _ IH]; simpl; constructor;
    [now apply (picked_distance query child_id) | exact IH].
Qed.



(** C5: [search_similar_diaries] returns a sequence on every input and that
    sequence is empty when the query's embedding is empty, when no record
    survives the child filter, and whenever a step of the pipeline raises. *)
Theorem search_degrades_to_empty (query child_id : string) (top_k : Z)
    (s : Store fl) :
  (create_embedding query = [] ->
   search_similar_diaries create_embedding query child_id top_k s = [])
  /\ (filtered_metadata_of child_id s = [] ->
      search_similar_diaries create_embedding query child_id top_k s = [])
  /\ (forall e,
        search_similar_diaries_body create_embedding query child_id top_k s
        = Raise e ->
        search_similar_diaries create_embedding query child_id top_k s = []).
Proof.
  unfold search_similar_diaries, try_except. repeat split.
  - intros H. rewrite search_body_early; [reflexivity |].
    left. now rewrite H.
  - intros H. rewrite search_body_early; [reflexivity |].
    right. now rewrite H.
  - intros e H. now rewrite H.
Qed.

(** *** What each operation does to the files *)

Lemma rebuild_faiss_index_files (s : Store fl) :
  load_children (rebuild_faiss_index s) = load_children s
  /\ load_diaries (rebuild_faiss_index s) = load_diaries s
  /\ load_embeddings_metadata (rebuild_faiss_index s)
     = load_embeddings_metadata s.
Proof.
  unfold rebuild_faiss_index, try_except.
  destruct (is_empty (load_embeddings_metadata s)); [now repeat split |].
  destruct (np_array (map embedding (load_embeddings_metadata s)))
    as [a | e]; simpl; [| now repeat split].
  destruct (shape1 a) as [d | e]; simpl; [| now repeat split].
  destruct (index_add (IndexFlatL2 d) a) as [i | e]; simpl; now repeat split.
Qed.

(** The metadata after the upsert of [update_diary_embedding]. *)
Lemma update_diary_embedding_metadata (diary_id content : string)
    (s : Store fl) :
  load_embeddings_metadata
    (update_diary_embedding create_embedding diary_id content s)
  = if is_empty (create_embedding content) then load_embeddings_metadata s
    else
      let r :=
        update_first
          (fun item => String.eqb (meta_diary_id item) diary_id)
          (fun item => mkEmbeddingRecord (meta_diary_id item)
                                         (create_embedding content))
          (load_embeddings_metadata s) in
      if snd r then fst r
      else fst r ++ [mkEmbeddingRecord diary_id (create_embedding content)].
Proof.
  unfold update_diary_embedding.
  destruct (is_empty (create_embedding content)); [reflexivity |].
  destruct (update_first _ _ (load_embeddings_metadata s)) as [m found].
  destruct (rebuild_faiss_index_files
              (save_embeddings_metadata
                 (if found then m
                  else m ++ [mkEmbeddingRecord diary_id
                                               (create_embedding content)]) s))
    as [_ [_ ->]].
  reflexivity.
Qed.

Lemma update_diary_embedding_diaries (diary_id content : string)
    (s : Store fl) :
  load_diaries (update_diary_embedding create_embedding diary_id content s)
  = load_diaries s.
Proof.
  unfold update_diary_embedding.
  destruct (is_empty (create_embedding content)); [reflexivity |].
  destruct (update_first _ _ (load_embeddings_metadata s)) as [m found].
  destruct (rebuild_faiss_index_files
              (save_embeddings_metadata
                 (if found then m
                  else m ++ [mkEmbeddingRecord diary_id
                                               (create_embedding content)]) s))
    as [_ [-> _]].
  reflexivity.
Qed.

Lemma delete_diary_metadata (diary_id : string) (s : Store fl) :
  load_embeddings_metadata (delete_diary diary_id s)
  = filter (fun m => negb (String.eqb (meta_diary_id m) diary_id))
           (load_embeddings_metadata s).
Proof.
  unfold delete_diary.
  match goal with
  | |- context [rebuild_faiss_index ?x] =>
      destruct (rebuild_faiss_index_files x) as [_ [_ ->]]
  end.
  reflexivity.
Qed.

Lemma delete_diary_diaries (diary_id : string) (s : Store fl) :
  load_diaries (delete_diary diary_id s)
  = filter (fun d => negb (has_diary_id diary_id d)) (load_diaries s).
Proof.
  unfold delete_diary.
  match goal with
  | |- context [rebuild_faiss_index ?x] =>
      destruct (rebuild_faiss_index_files x) as [_ [-> _]]
  end.
  reflexivity.
Qed.

Lemma delete_child_metadata (child_id : string) (s : Store fl) :
  load_embeddings_metadata (delete_child child_id s)
  = load_embeddings_metadata s.
Proof. reflexivity. Qed.

(** *** The upsert and the removal keep the records unique *)

Lemma upsert_unique (diary_id content : string) (s : Store fl) :
  unique_embedding_records s ->
  unique_embedding_records
    (update_diary_embedding create_embedding diary_id content s).
Proof.
  unfold unique_embedding_records. intros Hnd.
  rewrite update_diary_embedding_metadata.
  destruct (is_empty (create_embedding content)); [exact Hnd |].
  cbv zeta.
  pose proof (update_first_split
                (fun item : EmbeddingRecord fl =>
                   String.eqb (meta_diary_id item) diary_id)
                (fun item => mkEmbeddingRecord (meta_diary_id item)
                                               (create_embedding content))
                (load_embeddings_metadata s)) as Hsplit.
  pose proof (update_first_keys meta_diary_id
                (fun item : EmbeddingRecord fl =>
                   String.eqb (meta_diary_id item) diary_id)
                (fun item => mkEmbeddingRecord (meta_diary_id item)
                                               (create_embedding content))
                (load_embeddings_metadata s) (fun x => eq_refl)) as Hkeys.
  destruct (update_first _ _ (load_embeddings_metadata s)) as [m [|]];
    simpl in *.
  - now rewrite Hkeys.
  - destruct Hsplit as [-> Hall]. rewrite map_app. simpl.
    apply NoDup_app; [exact Hnd | repeat constructor; intros [] |].
    intros k Hk [<- | []]. apply in_map_iff in Hk.
    destruct Hk as [r [Hr Hin]]. rewrite Forall_forall in Hall.
    specialize (Hall r Hin). simpl in Hall. rewrite Hr, String.eqb_refl in Hall.
    discriminate.
Qed.

Lemma removal_unique (diary_id : string) (s : Store fl) :
  unique_embedding_records s ->
  unique_embedding_records (delete_diary diary_id s).
Proof.
  unfold unique_embedding_records. intros Hnd.
  rewrite delete_diary_metadata.
  rewrite <- (filter_map_swap (fun k => negb (String.eqb k diary_id))
                              meta_diary_id).
  now apply NoDup_filter.
Qed.

Lemma run_unique (c : command) (s : Store fl) :
  unique_embedding_records s ->
  unique_embedding_records (run create_embedding c s).
Proof.
  intros Hnd. destruct c; simpl.
  - exact Hnd.
  - exact Hnd.
  - exact Hnd.
  - unfold add_diary. simpl. now apply upsert_unique.
  - unfold update_diary. now apply upsert_unique.
  - now apply removal_unique.
Qed.

Lemma upsert_cases (diary_id content : string) (s : Store fl) :
  create_embedding content <> [] ->
  let e := create_embedding content in
  let m := load_embeddings_metadata s in
  let m' := load_embeddings_metadata
              (update_diary_embedding create_embedding diary_id content s) in
  (In diary_id (map meta_diary_id m) ->
   exists l1 r l2,
     m = l1 ++ r :: l2 /\ meta_diary_id r = diary_id
     /\ ~ In diary_id (map meta_diary_id l1)
     /\ m' = l1 ++ mkEmbeddingRecord diary_id e :: l2)
  /\ (~ In diary_id (map meta_diary_id m) ->
      m' = m ++ [mkEmbeddingRecord diary_id e]).
Proof.
  intros He e m m'. unfold m'. rewrite update_diary_embedding_metadata.
  replace (is_empty (create_embedding content)) with false
    by (destruct (create_embedding content); [congruence | reflexivity]).
  cbv zeta. fold e. fold m.
  pose proof (update_first_split
                (fun item : EmbeddingRecord fl =>
                   String.eqb (meta_diary_id item) diary_id)
                (fun item => mkEmbeddingRecord (meta_diary_id item) e) m)
    as Hsplit.
  destruct (update_first _ _ m) as [u [|]]; simpl.
  - destruct Hsplit as [l1 [r [l2 [Hm [Hr [Hl1 ->]]]]]].
    apply String.eqb_eq in Hr. split.
    + intros _. exists l1, r, l2. rewrite Hr. repeat split; try assumption.
      intros Hin. apply in_map_iff in Hin. destruct Hin as [x [Hx Hin]].
      rewrite Forall_forall in Hl1. specialize (Hl1 x Hin). simpl in Hl1.
      rewrite Hx, String.eqb_refl in Hl1. discriminate.
    + intros Hnot. exfalso. apply Hnot. rewrite Hm, map_app, in_app_iff.
      right. left. exact Hr.
  - destruct Hsplit as [-> Hall]. split; [| reflexivity].
    intros Hin. exfalso. apply in_map_iff in Hin.
    destruct Hin as [x [Hx Hin]]. rewrite Forall_forall in Hall.
    specialize (Hall x Hin). simpl in Hall.
    rewrite Hx, String.eqb_refl in Hall. discriminate.
Qed.

Lemma removal_removes_every_record (diary_id : string) (s : Store fl) :
  ~ In diary_id
       (map meta_diary_id (load_embeddings_metadata (delete_diary diary_id s))).
Proof.
  rewrite delete_diary_metadata. intros Hin. apply in_map_iff in Hin.
  destruct Hin as [m [Hm Hin]]. apply filter_In in Hin.
  destruct Hin as [_ Hneq]. rewrite Hm, String.eqb_refl in Hneq. discriminate.
Qed.

(** *** Deleted diaries and the search *)

Lemma search_results_are_stored (query child_id : string) (top_k : Z)
    (s : Store fl) :
  incl (search_similar_diaries create_embedding query child_id top_k s)
       (load_diaries s).
Proof.
  intros d Hd. apply search_results_are_child_diaries in Hd.
  unfold child_diaries_of in Hd. apply filter_In in Hd. tauto.
Qed.

(** After [delete_diary] no diary with the deleted identifier is returned,
    whatever the query and the child. *)
Lemma delete_diary_hides_from_search (id query child_id : string)
    (top_k : Z) (s : Store fl) (d : Diary) :
  diary_id d = id ->
  ~ In d (search_similar_diaries create_embedding query child_id top_k
            (delete_diary id s)).
Proof.
  intros Hid Hin. apply search_results_are_stored in Hin.
  rewrite delete_diary_diaries in Hin. apply filter_In in Hin.
  destruct Hin as [_ Hneq]. unfold has_diary_id in Hneq.
  rewrite Hid, String.eqb_refl in Hneq. discriminate.
Qed.

(** After [delete_child] no diary that referenced the child is returned,
    whatever the query and the child searched for. *)
Lemma delete_child_hides_from_search (child_id query other : string)
    (top_k : Z) (s : Store fl) (d : Diary) :
  In child_id (get_child_ids d) ->
  ~ In d (search_similar_diaries create_embedding query other top_k
            (delete_child child_id s)).
Proof.
  intros Href Hin. apply search_results_are_stored in Hin.
  unfold delete_child, load_diaries, save_diaries, save_children in Hin.
  simpl in Hin. apply filter_In in Hin. destruct Hin as [_ Hneq].
  apply str_in_iff in Href. rewrite Href in Hneq. discriminate.
Qed.

(** C7: when the embedding of the content fails during [add_diary], the new
    diary is still appended to the diary store and the embedding metadata
    store is left as it was, so it gains no record for the new identifier. *)
Theorem add_diary_survives_embedding_failure (uuid : string)
    (child_ids : list string) (date_str content : string) (s : Store fl) :
  create_embedding content = [] ->
  let diary := mkDiary uuid (Some child_ids) date_str content in
  let r := add_diary create_embedding uuid child_ids date_str content s in
  fst r = diary
  /\ load_diaries (snd r) = load_diaries s ++ [diary]
  /\ load_embeddings_metadata (snd r) = load_embeddings_metadata s
  /\ (~ In uuid (map meta_diary_id (load_embeddings_metadata s)) ->
      ~ In uuid (map meta_diary_id (load_embeddings_metadata (snd r)))).
Proof.
  intros Hfail diary r.
  assert (Hmeta : load_embeddings_metadata (snd r) = load_embeddings_metadata s).
  { unfold r, add_diary. cbn [snd diary_id].
    rewrite update_diary_embedding_metadata, Hfail. reflexivity. }
  repeat split.
  - unfold r, add_diary. cbn [snd diary_id].
    now rewrite update_diary_embedding_diaries.
  - exact Hmeta.
  - now rewrite Hmeta.
Qed.

(** *** Stores the application can reach *)

Lemma reachable_unique (s : Store fl) :
  reachable create_embedding s -> unique_embedding_records s.
Proof.
  intros [cs ->].
  assert (H : unique_embedding_records (@initialize_app fl)) by constructor.
  revert H. generalize (@initialize_app fl).
  induction cs as [| c cs IH]; simpl; intros s H;
    [exact H | apply IH; now apply run_unique].
Qed.

Lemma upsert_dimension (D : nat) (id text : string) (s : Store fl) :
  fixed_dimension create_embedding D ->
  vectors_of_dimension D s ->
  vectors_of_dimension D (update_diary_embedding create_embedding id text s).
Proof.
  unfold vectors_of_dimension. intros Hfix Hall.
  rewrite update_diary_embedding_metadata.
  destruct (is_empty (create_embedding text)) eqn:He; [exact Hall |].
  assert (HD : List.length (create_embedding text) = D).
  { destruct (Hfix text) as [H0 | HD]; [| exact HD].
    rewrite H0 in He. discriminate. }
  cbv zeta.
  pose proof (update_first_split
                (fun item : EmbeddingRecord fl =>
                   String.eqb (meta_diary_id item) id)
                (fun item => mkEmbeddingRecord (meta_diary_id item)
                                               (create_embedding text))
                (load_embeddings_metadata s)) as Hsplit.
  destruct (update_first _ _ (load_embeddings_metadata s)) as [m [|]];
    simpl in *.
  - destruct Hsplit as [l1 [r [l2 [Hm [_ [_ ->]]]]]].
    rewrite Hm in Hall. apply Forall_app in Hall. destruct Hall as [H1 H2].
    inversion H2 as [| r' l2' _ Hl2]. apply Forall_app. split; [exact H1 |].
    constructor; [exact HD | exact Hl2].
  - destruct Hsplit as [-> _]. apply Forall_app. split; [exact Hall |].
    constructor; [exact HD | constructor].
Qed.

Lemma run_dimension (D : nat) (c : command) (s : Store fl) :
  fixed_dimension create_embedding D ->
  vectors_of_dimension D s ->
  vectors_of_dimension D (run create_embedding c s).
Proof.
  intros Hfix Hall. destruct c; simpl.
  - exact Hall.
  - exact Hall.
  - exact Hall.
  - unfold add_diary. simpl. now apply upsert_dimension.
  - unfold update_diary. now apply upsert_dimension.
  - unfold vectors_of_dimension. rewrite delete_diary_metadata.
    apply Forall_forall. intros m Hm. apply filter_In in Hm.
    unfold vectors_of_dimension in Hall. rewrite Forall_forall in Hall.
    apply Hall. tauto.
Qed.

Lemma reachable_dimension (D : nat) (s : Store fl) :
  fixed_dimension create_embedding D ->
  reachable create_embedding s -> vectors_of_dimension D s.
Proof.
  intros Hfix [cs ->].
  assert (H : vectors_of_dimension D (@initialize_app fl)) by constructor.
  revert H. generalize (@initialize_app fl).
  induction cs as [| c cs IH]; simpl; intros s H;
    [exact H | apply IH; now apply run_dimension].
Qed.

(** In a reachable store, with an embedding model of one dimension, the
    vectors the search compares all have the dimension of the query's. *)
Lemma reachable_same_dimension (D : nat) (query child_id : string)
    (s : Store fl) :
  fixed_dimension create_embedding D ->
  reachable create_embedding s ->
  create_embedding query <> [] ->
  same_dimension create_embedding query child_id s.
Proof.
  intros Hfix Hreach Hq.
  pose proof (reachable_dimension D s Hfix Hreach) as Hall.
  unfold same_dimension, filtered_metadata_of.
  apply Forall_forall. intros m Hm. apply filter_In in Hm.
  unfold vectors_of_dimension in Hall. rewrite Forall_forall in Hall.
  rewrite (Hall m (proj1 Hm)).
  destruct (Hfix query) as [H0 | HD]; [contradiction | now rewrite HD].
Qed.

(** Every child record the application writes carries the notes key. *)
Lemma update_diary_embedding_children (id text : string) (s : Store fl) :
  load_children (update_diary_embedding create_embedding id text s)
  = load_children s.
Proof.
  unfold update_diary_embedding.
  destruct (is_empty (create_embedding text)); [reflexivity |].
  destruct (update_first _ _ (load_embeddings_metadata s)) as [m found].
  match goal with
  | |- context [rebuild_faiss_index ?x] =>
      destruct (rebuild_faiss_index_files x) as [-> _]
  end.
  reflexivity.
Qed.

Lemma run_notes_present (c : command) (s : Store fl) :
  Forall (fun child => notes child <> None) (load_children s) ->
  Forall (fun child => notes child <> None)
         (load_children (run create_embedding c s)).
Proof.
  intros Hall. destruct c; simpl.
  - unfold load_children in *. simpl. apply Forall_app. split; [exact Hall |].
    repeat constructor. discriminate.
  - unfold update_child, load_children in *. simpl.
    apply update_first_Forall; [intros x; discriminate | exact Hall].
  - unfold delete_child, load_children in *. simpl.
    apply Forall_forall. intros x Hx. apply filter_In in Hx.
    rewrite Forall_forall in Hall. apply Hall. tauto.
  - unfold add_diary. simpl. now rewrite update_diary_embedding_children.
  - unfold update_diary. now rewrite update_diary_embedding_children.
  - unfold delete_diary.
    match goal with
    | |- context [rebuild_faiss_index ?x] =>
        destruct (rebuild_faiss_index_files x) as [-> _]
    end.
    exact Hall.
Qed.

Lemma reachable_notes_present (s : Store fl) :
  reachable create_embedding s ->
  Forall (fun child => notes child <> None) (load_children s).
Proof.
  intros [cs ->].
  assert (H : Forall (fun child => notes child <> None)
                     (load_children (@initialize_app fl))) by constructor.
  revert H. generalize (@initialize_app fl).
  induction cs as [| c cs IH]; simpl; intros s H;
    [exact H | apply IH; now apply run_notes_present].
Qed.

(** In a reachable store the notes slot is what the child record holds: the
    placeholder of [get_notes] is never substituted. *)
Lemma reachable_get_notes (id : string) (child : Child) (s : Store fl) :
  reachable create_embedding s ->
  get_child_by_id id s = Some child ->
  notes child = Some (get_notes child).
Proof.
  intros Hreach Hget. apply reachable_notes_present in Hreach.
  unfold get_child_by_id in Hget. apply find_some in Hget.
  rewrite Forall_forall in Hreach. specialize (Hreach child (proj1 Hget)).
  unfold get_notes. destruct (notes child); [reflexivity | contradiction].
Qed.

(** C8: the embedding metadata store holds at most one record per diary
    identifier: the store [initialize_app] creates does, every operation
    of the application keeps it so, and so does every store the
    application reaches.  The upsert of [update_diary_embedding] replaces
    the vector where the record stands when the identifier is present and
    appends one record when it is absent; the removal of [delete_diary]
    leaves no record for the identifier. *)
Theorem embedding_records_stay_unique :
  unique_embedding_records (@initialize_app fl)
  /\ (forall (c : command) (s : Store fl),
        unique_embedding_records s ->
        unique_embedding_records (run create_embedding c s))
  /\ (forall (id text : string) (s : Store fl),
        unique_embedding_records s ->
        unique_embedding_records
          (update_diary_embedding create_embedding id text s))
  /\ (forall s : Store fl,
        reachable create_embedding s -> unique_embedding_records s)
  /\ (forall (id text : string) (s : Store fl),
        create_embedding text <> [] ->
        let e := create_embedding text in
        let m := load_embeddings_metadata s in
        let m' := load_embeddings_metadata
                    (update_diary_embedding create_embedding id text s) in
        (In id (map meta_diary_id m) ->
         exists l1 r l2,
           m = l1 ++ r :: l2 /\ meta_diary_id r = id
           /\ ~ In id (map meta_diary_id l1)
           /\ m' = l1 ++ mkEmbeddingRecord id e :: l2)
        /\ (~ In id (map meta_diary_id m) ->
            m' = m ++ [mkEmbeddingRecord id e]))
  /\ (forall (id : string) (s : Store fl),
        (unique_embedding_records s ->
         unique_embedding_records (delete_diary id s))
        /\ ~ In id (map meta_diary_id
                        (load_embeddings_metadata (delete_diary id s)))).
Proof.
  split; [constructor |].
  split; [intros c s; apply run_unique |].
  split; [intros id text s; apply upsert_unique |].
  split; [exact reachable_unique |].
  split; [intros id text s Hok; now apply (upsert_cases id text s) |].
  intros id s. split;
    [apply removal_unique | apply removal_removes_every_record].
Qed.

(** C10: [delete_child c] keeps exactly the diaries that do not reference
    [c], in their order: no diary that references [c] remains, a diary
    shared with another child is gone for that child too, and the diaries
    that do not reference [c] are the same before and after. *)
Theorem delete_child_removes_referencing_diaries (c : string) (s : Store fl) :
  let s' := delete_child c s in
  load_diaries s'
  = filter (fun d => negb (str_in c (get_child_ids d))) (load_diaries s)
  /\ Forall (fun d => ~ In c (get_child_ids d)) (load_diaries s')
  /\ (forall other d, In c (get_child_ids d) ->
                      ~ In d (get_diaries_by_child other s'))
  /\ (forall d, ~ In c (get_child_ids d) ->
                (In d (load_diaries s') <-> In d (load_diaries s))).
Proof.
  intros s'.
  assert (Heq : load_diaries s'
                = filter (fun d => negb (str_in c (get_child_ids d)))
                         (load_diaries s)) by reflexivity.
  assert (Hout : forall d, In d (load_diaries s') ->
                           ~ In c (get_child_ids d)).
  { intros d Hd Href. rewrite Heq in Hd. apply filter_In in Hd.
    apply str_in_iff in Href. destruct Hd as [_ Hd]. rewrite Href in Hd.
    discriminate. }
  split; [exact Heq |]. split; [now apply Forall_forall |]. split.
  - intros other d Href Hd. unfold get_diaries_by_child in Hd.
    apply filter_In in Hd. destruct Hd as [Hd _]. now apply (Hout d).
  - intros d Hnot. rewrite Heq, filter_In. split; [tauto |].
    intros Hd. split; [exact Hd |].
    destruct (str_in c (get_child_ids d)) eqn:Href; [| reflexivity].
    apply str_in_iff in Href. contradiction.
Qed.

End Properties.

(** ** Age of a child *)

Lemma format_age_display_months (m : Z) :
  0 <= m < 12 -> format_age_display m = str_of_int m +++ "ヶ月".
Proof.
  intros Hm. unfold format_age_display.
  now rewrite (Z.div_small m 12 Hm), (Z.mod_small m 12 Hm).
Qed.

Lemma format_age_display_years (m : Z) :
  12 <= m ->
  format_age_display m
  = if m mod 12 =? 0 then str_of_int (m / 12) +++ "歳"
    else str_of_int (m / 12) +++ "歳" +++ str_of_int (m mod 12) +++ "ヶ月".
Proof.
  intros Hm. unfold format_age_display.
  assert (Hy : 1 <= m / 12) by (apply Z.div_le_lower_bound; lia).
  replace (m / 12 =? 0) with false by (symmetry; apply Z.eqb_neq; lia).
  reflexivity.
Qed.

(** C6: the age in whole months is
    [max(0, (today.year - birth.year) * 12 + (today.month - birth.month)
            - (1 if today.day < birth.day else 0))];
    its label is the months alone under one year, the years alone when the
    remainder is 0, and years followed by months otherwise.  Born 2023-01-15
    and seen on 2024-03-10 a child is 13 months old, shown as 1 year 1 month;
    born 2024-03-20 the age is clamped to 0 months, shown as 0 months. *)
Theorem age_in_months_and_label :
  (forall birth today : calendar_date,
      let m := calculate_age_months birth today in
      m = Z.max 0 ((year today - year birth) * 12
                   + (month today - month birth)
                   - (if day today <? day birth then 1 else 0))
      /\ (m < 12 -> format_age_display m = str_of_int m +++ "ヶ月")
      /\ (12 <= m -> m mod 12 = 0 ->
          format_age_display m = str_of_int (m / 12) +++ "歳")
      /\ (12 <= m -> m mod 12 <> 0 ->
          format_age_display m
          = str_of_int (m / 12) +++ "歳" +++ str_of_int (m mod 12) +++ "ヶ月"))
  /\ calculate_age_months (mkDate 2023 1 15) (mkDate 2024 3 10) = 13
  /\ format_age_display 13 = "1歳1ヶ月"
  /\ calculate_age_months (mkDate 2024 3 20) (mkDate 2024 3 10) = 0
  /\ format_age_display 0 = "0ヶ月".
Proof.
  split; [| repeat split; reflexivity].
  intros birth today m.
  assert (Hm : m = Z.max 0 ((year today - year birth) * 12
                            + (month today - month birth)
                            - (if day today <? day birth then 1 else 0))).
  { unfold m, calculate_age_months.
    destruct (day today <? day birth); f_equal; lia. }
  split; [exact Hm |].
  assert (Hpos : 0 <= m) by lia.
  split; [| split].
  - intros Hlt. apply format_age_display_months. lia.
  - intros Hge Hrem. rewrite (format_age_display_years m Hge).
    now replace (m mod 12 =? 0) with true by (symmetry; apply Z.eqb_eq; exact Hrem).
  - intros Hge Hrem. rewrite (format_age_display_years m Hge).
    now replace (m mod 12 =? 0) with false
      by (symmetry; apply Z.eqb_neq; exact Hrem).
Qed.

(** ** Evaluations on the sample store *)

Lemma Zfloat_total : fleb_total Sample.Zfloat.
Proof.
  intros a b. simpl. destruct (Z.leb_spec a b); [now left | right].
  apply Z.leb_le. lia.
Qed.

Lemma store0_unique : unique_embedding_records Sample.store0.
Proof.
  unfold unique_embedding_records. vm_compute.
  repeat constructor; simpl; intuition discriminate.
Qed.

Example store0_files :
  load_children Sample.store0 = [Sample.taro; Sample.hana]
  /\ load_diaries Sample.store0 = [Sample.d1; Sample.d2; Sample.d3]
  /\ load_embeddings_metadata Sample.store0
     = [Sample.record "d1" [3; 4]; Sample.record "d2" [1; 0];
        Sample.record "d3" [0; 7]]
  /\ EMBEDDINGS_INDEX_FILE Sample.store0
     = Some (@mkFaissIndex Sample.Zfloat 2 [[3; 4]; [1; 0]; [0; 7]]).
Proof. repeat split; reflexivity. Qed.

(** On the sample store the two diaries of child [c1] come back nearest
    first, and the one of child [c2] alone is left out. *)
Example search_store0_c1 :
  map diary_id
      (search_similar_diaries Sample.embed Sample.question "c1" 5 Sample.store0)
  = ["d2"; "d1"].
Proof. reflexivity. Qed.

(** Vectors of unequal lengths make [np.array] raise; the search then
    returns the empty list. *)
Example search_store_ragged :
  search_similar_diaries_body Sample.embed Sample.question "c1" 5
                              Sample.store_ragged = Raise ValueError
  /\ search_similar_diaries Sample.embed Sample.question "c1" 5
                            Sample.store_ragged = [].
Proof. split; reflexivity. Qed.

(** A query vector of another dimension fails the [assert d == self.d]. *)
Example search_other_dimension :
  search_similar_diaries_body Sample.embed_mixed "long" "c1" 5 Sample.store0
  = Raise AssertionError.
Proof. reflexivity. Qed.

(** [generate_advice] turns a missing child and a failing chat model into
    messages. *)
Example generate_advice_messages :
  generate_advice Sample.embed Sample.echo Sample.question "c9"
                  (mkDate 2024 3 10) Sample.store0
  = "子ども情報が見つかりません。"
  /\ generate_advice Sample.embed Sample.chat Sample.question "c1"
                     (mkDate 2024 3 10) Sample.store0
     = "アドバイス生成中にエラーが発生しました: quota".
Proof. split; reflexivity. Qed.

(** C4: [delete_child "c1"] on the sample store deletes the diaries [d1]
    and [d2] of that child and leaves both of their embedding records in the
    metadata store, whereas [delete_diary "d1"] removes the record of
    [d1]. *)
Theorem delete_child_keeps_embedding_records :
  let s' := delete_child "c1" Sample.store0 in
  map diary_id (load_diaries Sample.store0) = ["d1"; "d2"; "d3"]
  /\ map diary_id (load_diaries s') = ["d3"]
  /\ map meta_diary_id (load_embeddings_metadata s') = ["d1"; "d2"; "d3"]
  /\ map meta_diary_id
         (load_embeddings_metadata (delete_diary "d1" Sample.store0))
     = ["d2"; "d3"].
Proof. repeat split; reflexivity. Qed.

(** C9: a child registered with empty notes is stored with the notes key
    holding the empty string; for such a child (the sample child [taro]) the
    notes slot of the prompt [generate_advice] sends holds the empty string
    and not the placeholder.  The placeholder appears only when the record
    has no notes key. *)
Theorem empty_notes_are_not_replaced :
  let today := mkDate 2024 3 10 in
  fst (add_child "c1" "太郎" (mkDate 2023 1 15) ""
                 (@initialize_app Sample.Zfloat)) = Sample.taro
  /\ get_child_by_id "c1" Sample.store0 = Some Sample.taro
  /\ notes Sample.taro = Some ""
  /\ get_notes Sample.taro = ""
  /\ get_notes (mkChild "c1" "太郎" (mkDate 2023 1 15) None) = "特になし"
  /\ generate_advice Sample.embed Sample.echo Sample.question "c1" today
                     Sample.store0
     = Constants.ADVICE_PROMPT_TEMPLATE_format
         "太郎" 13 "1歳1ヶ月" ""
         (diary_context_of [Sample.d2; Sample.d1]) Sample.question.
Proof. repeat split; reflexivity. Qed.

(** ** The theorems at the sample store *)



Lemma add_diary_survives_embedding_failure_sample :
  let diary := mkDiary "d4" (Some ["c1"]) "2024-03-01" "熱が出た" in
  let r := add_diary Sample.embed "d4" ["c1"] "2024-03-01" "熱が出た"
                     Sample.store0 in
  Sample.embed "熱が出た" = []
  /\ fst r = diary
  /\ load_diaries (snd r) = load_diaries Sample.store0 ++ [diary]
  /\ load_embeddings_metadata (snd r) = load_embeddings_metadata Sample.store0
  /\ (~ In "d4" (map meta_diary_id (load_embeddings_metadata Sample.store0)) ->
      ~ In "d4" (map meta_diary_id (load_embeddings_metadata (snd r)))).
Proof.
  split; [reflexivity |].
  exact (add_diary_survives_embedding_failure Sample.Zfloat Sample.embed "d4"
           ["c1"] "2024-03-01" "熱が出た" Sample.store0 eq_refl).
Defined.

Lemma embedding_records_stay_unique_sample :
  unique_embedding_records
    (run Sample.embed (DeleteDiary "d2")
         (run Sample.embed
              (UpdateDiary "d1" ["c1"] "2024-01-05" "離乳食を始めた")
              (@initialize_app Sample.Zfloat))).
Proof.
  pose proof (embedding_records_stay_unique Sample.Zfloat Sample.embed)
    as [Hinit [Hrun _]].
  apply Hrun, Hrun, Hinit.
Defined.


(** * Further properties of the stores, the search and the pages *)

(** ** Lists *)

Lemma Forall2_In_r {A B : Type} (R : A -> B -> Prop) (l : list A) (l' : list B)
    (y : B) :
  Forall2 R l l' -> In y l' -> exists x, In x l /\ R x y.
Proof.
  induction 1 as [| a b l l' Hab _ IH]; simpl; [easy |].
  intros [-> | Hin].
  - exists a. tauto.
  - destruct (IH Hin) as [x [Hx HR]]. exists x. tauto.
Qed.

Lemma Forall2_functional {A B : Type} (R : A -> B -> Prop) (l : list A)
    (r r' : list B) :
  (forall a b b', R a b -> R a b' -> b = b') ->
  Forall2 R l r -> Forall2 R l r' -> r = r'.
Proof.
  intros Hfun H. revert r'.
  induction H as [| a b l r Hab _ IH]; intros r' H'; inversion H'; subst;
    [reflexivity |].
  f_equal; [eapply Hfun; eassumption | now apply IH].
Qed.

Lemma Forall2_firstn {A B : Type} (R : A -> B -> Prop) (n : nat) (l : list A)
    (r : list B) :
  Forall2 R l r -> Forall2 R (firstn n l) (firstn n r).
Proof.
  intros H. revert n. induction H as [| a b l r Hab _ IH]; intros [| n]; simpl;
    constructor; [assumption | apply IH].
Qed.

Lemma NoDup_firstn {A : Type} (n : nat) (l : list A) :
  NoDup l -> NoDup (firstn n l).
Proof.
  intros H. rewrite <- (firstn_skipn n l) in H.
  eapply NoDup_app_remove_r. exact H.
Qed.

Lemma enumerate_fst {A : Type} (l : list A) (start : nat) :
  map fst (enumerate start l) = seq start (List.length l).
Proof.
  revert start. induction l as [| x t IH]; simpl; intros start;
    [reflexivity | now rewrite IH].
Qed.

Lemma find_app {A : Type} (p : A -> bool) (l l' : list A) :
  find p (l ++ l') = match find p l with
                     | Some a => Some a
                     | None => find p l'
                     end.
Proof.
  induction l as [| x t IH]; simpl; [reflexivity |].
  destruct (p x); [reflexivity | exact IH].
Qed.

Lemma find_all_false {A : Type} (p : A -> bool) (l : list A) :
  Forall (fun x => p x = false) l -> find p l = None.
Proof.
  induction 1 as [| x t Hx _ IH]; simpl; [reflexivity | now rewrite Hx].
Qed.

Lemma filter_comm {A : Type} (p q : A -> bool) (l : list A) :
  filter p (filter q l) = filter q (filter p l).
Proof.
  induction l as [| x t IH]; simpl; [reflexivity |].
  destruct (p x) eqn:Hp, (q x) eqn:Hq; simpl; rewrite ?Hp, ?Hq, IH;
    reflexivity.
Qed.

Lemma filter_idempotent {A : Type} (p : A -> bool) (l : list A) :
  filter p (filter p l) = filter p l.
Proof.
  induction l as [| x t IH]; simpl; [reflexivity |].
  destruct (p x) eqn:Hp; simpl; [rewrite Hp; now f_equal | exact IH].
Qed.

Section SearchProperties.

Variable fl : Float32.
Variable create_embedding : string -> list fl.

Lemma insert_by_distance_Permutation (p : nat * fl) (l : list (nat * fl)) :
  Permutation (insert_by_distance p l) (p :: l).
Proof.
  induction l as [| h t IH]; simpl; [reflexivity |].
  destruct (fleb (snd p) (snd h)); [reflexivity |].
  rewrite IH. apply perm_swap.
Qed.

Lemma sort_by_distance_Permutation (l : list (nat * fl)) :
  Permutation (sort_by_distance l) l.
Proof.
  induction l as [| h t IH]; simpl; [constructor |].
  rewrite insert_by_distance_Permutation. now constructor.
Qed.

(** The positions of the ranked candidates are pairwise different. *)
Lemma ranked_candidates_positions (query child_id : string) (s : Store fl) :
  NoDup (map fst (ranked_candidates create_embedding query child_id s)).
Proof.
  unfold ranked_candidates.
  eapply Permutation_NoDup.
  - apply Permutation_map. symmetry. apply sort_by_distance_Permutation.
  - rewrite enumerate_fst. apply seq_NoDup.
Qed.

(** Either the search returns nothing, or it went through the whole
    pipeline. *)
Lemma search_cases (query child_id : string) (top_k : Z) (s : Store fl) :
  search_similar_diaries create_embedding query child_id top_k s = []
  \/ (0 < Z.min top_k (Z.of_nat (List.length (filtered_metadata_of child_id s)))
      /\ same_dimension create_embedding query child_id s
      /\ Forall2 (picked create_embedding query child_id s)
                 (firstn (Z.to_nat
                            (Z.min top_k
                               (Z.of_nat
                                  (List.length
                                     (filtered_metadata_of child_id s)))))
                         (ranked_candidates create_embedding query child_id s))
                 (search_similar_diaries create_embedding query child_id
                                         top_k s)).
Proof.
  assert (H : search_similar_diaries create_embedding query child_id top_k s = []
              \/ search_similar_diaries create_embedding query child_id top_k s
                 <> []).
  { destruct (search_similar_diaries create_embedding query child_id top_k s);
      [left; reflexivity | right; discriminate]. }
  destruct H as [H | H]; [now left | right].
  destruct (search_nonempty_inv _ _ _ _ _ _ H) as [Hq [Hfm Hbody]].
  exact (search_body_pipeline _ _ _ _ _ _ _ Hq Hfm Hbody).
Qed.

(** X1: the search never returns more than [top_k] diaries, and none when
    [top_k] is not positive; no assumption on the store or the vectors. *)
Theorem search_at_most_top_k (query child_id : string) (top_k : Z)
    (s : Store fl) :
  Z.of_nat (List.length
              (search_similar_diaries create_embedding query child_id top_k s))
  <= Z.max 0 top_k.
Proof.
  destruct (search_cases query child_id top_k s) as [-> | [Hk [_ Hall]]];
    [simpl; lia |].
  rewrite <- (Forall2_length Hall), length_firstn. lia.
Qed.

(** X2: every returned diary has an embedding record in the metadata
    store: a diary whose embedding was never stored is not returned. *)
Theorem search_results_have_embedding (query child_id : string) (top_k : Z)
    (s : Store fl) :
  Forall (fun d => In (diary_id d)
                      (map meta_diary_id (load_embeddings_metadata s)))
         (search_similar_diaries create_embedding query child_id top_k s).
Proof.
  destruct (search_cases query child_id top_k s) as [-> | [_ [_ Hall]]];
    [constructor |].
  apply Forall_forall. intros d Hd.
  destruct (Forall2_In_r _ _ _ d Hall Hd) as [p [_ Hp]].
  apply picked_diary_id in Hp. destruct Hp as [m [Hm [Hid _]]].
  unfold filtered_metadata_of in Hm. apply filter_In in Hm.
  rewrite Hid. apply in_map. tauto.
Qed.

Lemma filtered_metadata_unique (child_id : string) (s : Store fl) :
  unique_embedding_records s ->
  NoDup (map meta_diary_id (filtered_metadata_of child_id s)).
Proof.
  unfold unique_embedding_records, filtered_metadata_of. intros Hnd.
  rewrite <- (filter_map_swap
                (fun k => str_in k (map diary_id (child_diaries_of child_id s)))
                meta_diary_id).
  now apply NoDup_filter.
Qed.

Lemma picked_distinct (query child_id : string) (s : Store fl)
    (pairs : list (nat * fl)) (res : list Diary) :
  unique_embedding_records s ->
  Forall2 (picked create_embedding query child_id s) pairs res ->
  NoDup (map fst pairs) -> NoDup (map diary_id res).
Proof.
  intros Hnd Hall. pose proof (filtered_metadata_unique child_id s Hnd) as Hfm.
  induction Hall as [| p d ps ds Hp Hrest IH]; simpl; intros Hpos;
    [constructor |].
  inversion Hpos as [| i rest Hnotin Hpos']; subst.
  constructor; [| now apply IH].
  intros Hin. apply in_map_iff in Hin. destruct Hin as [d' [Hid Hd']].
  destruct (Forall2_In_r _ _ _ d' Hrest Hd') as [p' [Hp' Hpick']].
  apply Hnotin.
  destruct Hp as [m [Hm [_ Hf]]]. destruct Hpick' as [m' [Hm' [_ Hf']]].
  apply find_some in Hf, Hf'. destruct Hf as [_ Hf]. destruct Hf' as [_ Hf'].
  apply String.eqb_eq in Hf, Hf'.
  assert (Hkey : meta_diary_id m = meta_diary_id m') by congruence.
  assert (Hfst : fst p = fst p').
  { apply (proj1 (NoDup_nth_error _) Hfm).
    - rewrite length_map. apply nth_error_Some. congruence.
    - rewrite !nth_error_map, Hm, Hm'. simpl. now rewrite Hkey. }
  rewrite Hfst. now apply in_map.
Qed.


Lemma picked_functional (query child_id : string) (s : Store fl)
    (p : nat * fl) (d d' : Diary) :
  picked create_embedding query child_id s p d ->
  picked create_embedding query child_id s p d' -> d = d'.
Proof.
  intros [m [Hm [_ Hf]]] [m' [Hm' [_ Hf']]]. congruence.
Qed.

Lemma search_result_of_pipeline (query child_id : string) (top_k : Z)
    (s : Store fl) :
  create_embedding query <> [] ->
  filtered_metadata_of child_id s <> [] ->
  same_dimension create_embedding query child_id s ->
  0 < top_k ->
  Forall2 (picked create_embedding query child_id s)
          (firstn (Z.to_nat
                     (Z.min top_k
                        (Z.of_nat
                           (List.length (filtered_metadata_of child_id s)))))
                  (ranked_candidates create_embedding query child_id s))
          (search_similar_diaries create_embedding query child_id top_k s).
Proof.
  intros Hq Hfm Hdim Hk.
  assert (Hq' : is_empty (create_embedding query) = false)
    by (destruct (create_embedding query); [congruence | reflexivity]).
  assert (Hfm' : is_empty (filtered_metadata_of child_id s) = false)
    by (destruct (filtered_metadata_of child_id s); [congruence | reflexivity]).
  destruct (search_body_runs _ _ query child_id top_k s Hq' Hfm' Hdim Hk)
    as [res Hbody].
  unfold search_similar_diaries. rewrite Hbody. simpl.
  exact (proj2 (proj2 (search_body_pipeline _ _ _ _ _ _ _ Hq' Hfm' Hbody))).
Qed.

(** X4: asking for fewer diaries gives a prefix of what asking for more
    gives: a larger [top_k] only appends farther diaries. *)
Theorem search_prefix_in_top_k (query child_id : string) (k k' : Z)
    (s : Store fl) :
  0 < k -> k <= k' ->
  search_similar_diaries create_embedding query child_id k s
  = firstn (Z.to_nat k)
           (search_similar_diaries create_embedding query child_id k' s).
Proof.
  intros Hk Hle.
  assert (Hpipe : forall j, 0 < j ->
            create_embedding query <> [] ->
            filtered_metadata_of child_id s <> [] ->
            same_dimension create_embedding query child_id s ->
            search_similar_diaries create_embedding query child_id k s
            = firstn (Z.to_nat k)
                (search_similar_diaries create_embedding query child_id k' s)).
  { intros _ _ Hq Hfm Hdim.
    pose proof (search_result_of_pipeline query child_id k s Hq Hfm Hdim Hk)
      as H1.
    assert (Hk' : 0 < k') by lia.
    pose proof (search_result_of_pipeline query child_id k' s Hq Hfm Hdim Hk')
      as H2.
    apply (Forall2_firstn _ (Z.to_nat k)) in H2.
    rewrite firstn_firstn in H2.
    replace (Nat.min (Z.to_nat k)
               (Z.to_nat
                  (Z.min k' (Z.of_nat
                               (List.length (filtered_metadata_of child_id s))))))
      with (Z.to_nat
              (Z.min k (Z.of_nat
                          (List.length (filtered_metadata_of child_id s)))))
      in H2 by lia.
    eapply Forall2_functional; [| exact H1 | exact H2].
    intros p d d'. apply picked_functional. }
  destruct (create_embedding query) as [| x q] eqn:Hq.
  { unfold search_similar_diaries, search_similar_diaries_body.
    rewrite Hq. simpl. now rewrite firstn_nil. }
  destruct (filtered_metadata_of child_id s) as [| m fm] eqn:Hfm.
  { assert (H0 : forall j,
              search_similar_diaries create_embedding query child_id j s = []).
    { intros j. unfold search_similar_diaries.
      rewrite search_body_early; [reflexivity |]. right. now rewrite Hfm. }
    rewrite !H0. now rewrite firstn_nil. }
  destruct (search_cases query child_id k s) as [E | [_ [Hdim _]]];
    destruct (search_cases query child_id k' s) as [E' | [_ [Hdim' _]]].
  - rewrite E, E'. now rewrite firstn_nil.
  - rewrite <- Hq, <- Hfm in *. apply (Hpipe k Hk); congruence.
  - rewrite <- Hq, <- Hfm in *. apply (Hpipe k Hk); congruence.
  - rewrite <- Hq, <- Hfm in *. apply (Hpipe k Hk); congruence.
Qed.

End SearchProperties.

Section StoreProperties.

Variable fl : Float32.
Variable create_embedding : string -> list fl.

(** ** The persisted index *)

Lemma rebuild_faiss_index_empty (s : Store fl) :
  load_embeddings_metadata s = [] -> rebuild_faiss_index s = s.
Proof.
  intros H. unfold rebuild_faiss_index. now rewrite H.
Qed.

Lemma rebuild_faiss_index_uniform (D : nat) (s : Store fl) :
  vectors_of_dimension D s ->
  load_embeddings_metadata s <> [] ->
  rebuild_faiss_index s
  = write_index (mkFaissIndex D (map embedding (load_embeddings_metadata s))) s.
Proof.
  unfold vectors_of_dimension. intros Hvec Hne.
  assert (Hrows : Forall (fun r => List.length r = D)
                         (map embedding (load_embeddings_metadata s)))
    by (now apply Forall_map).
  assert (He : is_empty (load_embeddings_metadata s) = false)
    by (destruct (load_embeddings_metadata s); [congruence | reflexivity]).
  assert (He' : is_empty (map embedding (load_embeddings_metadata s)) = false)
    by (destruct (load_embeddings_metadata s); [congruence | reflexivity]).
  unfold rebuild_faiss_index. rewrite He.
  rewrite (np_array_uniform _ _ _ Hrows). cbn [rbind]. unfold index_add.
  rewrite (shape1_uniform _ _ _ He' Hrows).
  cbn [rbind IndexFlatL2 index_d index_xb]. rewrite Nat.eqb_refl.
  reflexivity.
Qed.

Lemma rebuild_faiss_index_in_sync (D : nat) (s : Store fl) :
  vectors_of_dimension D s -> index_in_sync D (rebuild_faiss_index s).
Proof.
  intros Hvec Hne.
  destruct (rebuild_faiss_index_files _ s) as [_ [_ Hmd]].
  rewrite Hmd in *. now rewrite (rebuild_faiss_index_uniform D s Hvec Hne).
Qed.

Lemma update_diary_embedding_in_sync (D : nat) (id text : string)
    (s : Store fl) :
  fixed_dimension create_embedding D ->
  vectors_of_dimension D s -> index_in_sync D s ->
  index_in_sync D (update_diary_embedding create_embedding id text s).
Proof.
  intros Hfix Hvec Hsync.
  pose proof (upsert_dimension _ _ D id text s Hfix Hvec) as Hd.
  unfold vectors_of_dimension in Hd.
  rewrite update_diary_embedding_metadata in Hd.
  unfold update_diary_embedding.
  destruct (is_empty (create_embedding text)); [exact Hsync |].
  cbv zeta in Hd.
  destruct (update_first _ _ (load_embeddings_metadata s)) as [m found].
  simpl in Hd. apply rebuild_faiss_index_in_sync. exact Hd.
Qed.

Lemma run_in_sync (D : nat) (c : command) (s : Store fl) :
  fixed_dimension create_embedding D ->
  vectors_of_dimension D s -> index_in_sync D s ->
  index_in_sync D (run create_embedding c s).
Proof.
  intros Hfix Hvec Hsync. destruct c; simpl.
  - exact Hsync.
  - exact Hsync.
  - exact Hsync.
  - unfold add_diary. simpl. now apply update_diary_embedding_in_sync.
  - unfold update_diary. now apply update_diary_embedding_in_sync.
  - unfold delete_diary. apply rebuild_faiss_index_in_sync.
    unfold vectors_of_dimension in *. simpl.
    apply Forall_forall. intros m Hm. apply filter_In in Hm.
    rewrite Forall_forall in Hvec. apply Hvec. tauto.
Qed.

Lemma reachable_in_sync (D : nat) (s : Store fl) :
  fixed_dimension create_embedding D ->
  reachable create_embedding s -> index_in_sync D s.
Proof.
  intros Hfix [cs ->].
  assert (H : vectors_of_dimension D (@initialize_app fl)
              /\ index_in_sync D (@initialize_app fl)).
  { split; [constructor | intros Hne; now contradiction Hne]. }
  revert H. generalize (@initialize_app fl).
  induction cs as [| c cs IH]; simpl; intros s [Hvec Hsync]; [exact Hsync |].
  apply IH. split; [now apply run_dimension | now apply run_in_sync].
Qed.

(** X5: in every store the application reaches, with an embedding model of
    one dimension [D], a non-empty metadata store is mirrored by the persisted
    index: the index file exists, has dimension [D] and holds exactly the
    stored vectors, one row per record, in the order of the records. *)
Theorem persisted_index_matches_metadata (D : nat) (s : Store fl) :
  fixed_dimension create_embedding D ->
  reachable create_embedding s ->
  load_embeddings_metadata s <> [] ->
  EMBEDDINGS_INDEX_FILE s
  = Some (mkFaissIndex D (map embedding (load_embeddings_metadata s))).
Proof.
  intros Hfix Hreach. exact (reachable_in_sync D s Hfix Hreach).
Qed.

(** X6: when [delete_diary] removes the last embedding record, the index
    is not rebuilt: the index file keeps every vector it held before, those
    of the deleted diary included. *)
Theorem deleting_last_record_leaves_index (D : nat) (id : string)
    (s : Store fl) :
  fixed_dimension create_embedding D ->
  reachable create_embedding s ->
  load_embeddings_metadata s <> [] ->
  load_embeddings_metadata (delete_diary id s) = [] ->
  EMBEDDINGS_INDEX_FILE (delete_diary id s)
  = Some (mkFaissIndex D (map embedding (load_embeddings_metadata s))).
Proof.
  intros Hfix Hreach Hne Hempty.
  rewrite <- (reachable_in_sync D s Hfix Hreach Hne).
  rewrite delete_diary_metadata in Hempty.
  unfold delete_diary. rewrite rebuild_faiss_index_empty; [reflexivity |].
  exact Hempty.
Qed.

(** What a rebuild does is decided by the metadata alone. *)
Lemma rebuild_faiss_index_by_metadata (s : Store fl) :
  exists o : option (FaissIndex fl),
    forall t : Store fl,
      load_embeddings_metadata t = load_embeddings_metadata s ->
      rebuild_faiss_index t = match o with
                              | Some index => write_index index t
                              | None => t
                              end.
Proof.
  unfold rebuild_faiss_index, try_except.
  destruct (is_empty (load_embeddings_metadata s)) eqn:He.
  { exists None. intros t ->. now rewrite He. }
  destruct (np_array (map embedding (load_embeddings_metadata s)))
    as [a | e] eqn:Ha.
  2: { exists None. intros t ->. now rewrite He, Ha. }
  destruct (shape1 a) as [d | e] eqn:Hd.
  2: { exists None. intros t ->. rewrite He, Ha. simpl. now rewrite Hd. }
  destruct (index_add (IndexFlatL2 d) a) as [i | e] eqn:Hi.
  - exists (Some i). intros t ->. rewrite He, Ha. simpl. rewrite Hd. simpl.
    now rewrite Hi.
  - exists None. intros t ->. rewrite He, Ha. simpl. rewrite Hd. simpl.
    now rewrite Hi.
Qed.

Lemma rebuild_faiss_index_idempotent (s : Store fl) :
  rebuild_faiss_index (rebuild_faiss_index s) = rebuild_faiss_index s.
Proof.
  destruct (rebuild_faiss_index_by_metadata s) as [o Ho].
  destruct (rebuild_faiss_index_files _ s) as [_ [_ Hmd]].
  rewrite (Ho (rebuild_faiss_index s) Hmd), (Ho s eq_refl).
  destruct o; reflexivity.
Qed.

(** X7: [delete_diary] is idempotent: deleting an identifier a second time
    changes no file, the index file included. *)
Theorem delete_diary_idempotent (id : string) (s : Store fl) :
  delete_diary id (delete_diary id s) = delete_diary id s.
Proof.
  assert (Hsame :
            save_embeddings_metadata
              (filter (fun m => negb (String.eqb (meta_diary_id m) id))
                      (load_embeddings_metadata (delete_diary id s)))
              (save_diaries
                 (filter (fun d => negb (has_diary_id id d))
                         (load_diaries (delete_diary id s)))
                 (delete_diary id s))
            = delete_diary id s).
  { rewrite delete_diary_metadata, delete_diary_diaries, !filter_idempotent.
    rewrite <- delete_diary_metadata, <- delete_diary_diaries.
    destruct (delete_diary id s). reflexivity. }
  unfold delete_diary at 1.
  change (load_embeddings_metadata
            (save_diaries
               (filter (fun d => negb (has_diary_id id d))
                       (load_diaries (delete_diary id s)))
               (delete_diary id s)))
    with (load_embeddings_metadata (delete_diary id s)).
  rewrite Hsame. unfold delete_diary. apply rebuild_faiss_index_idempotent.
Qed.

(** ** Upsert and lookup *)

(** X8: after a successful [update_diary_embedding] the vector stored for
    the diary is the new embedding, and the vector stored for every other
    diary is the one stored before. *)
Theorem upsert_then_lookup (id text : string) (s : Store fl) (d : Diary) :
  create_embedding text <> [] ->
  stored_embedding (update_diary_embedding create_embedding id text s) d
  = if String.eqb (diary_id d) id then Some (create_embedding text)
    else stored_embedding s d.
Proof.
  intros Hok. unfold stored_embedding.
  destruct (upsert_cases _ create_embedding id text s Hok) as [Hin Hout].
  set (p := fun m : EmbeddingRecord fl =>
              String.eqb (meta_diary_id m) (diary_id d)).
  assert (Hmiss : forall l : list (EmbeddingRecord fl),
            diary_id d = id -> ~ In id (map meta_diary_id l) ->
            find p l = None).
  { intros l Hid Hnot. apply find_all_false. apply Forall_forall.
    intros m Hm. unfold p. apply String.eqb_neq. intros Heq. apply Hnot.
    rewrite <- Hid, <- Heq. now apply in_map. }
  destruct (in_dec string_dec id
                   (map meta_diary_id (load_embeddings_metadata s)))
    as [Hyes | Hno].
  - destruct (Hin Hyes) as [l1 [r [l2 [Hm [Hr [Hl1 ->]]]]]].
    rewrite Hm, !find_app. simpl.
    destruct (String.eqb (diary_id d) id) eqn:Hd.
    + apply String.eqb_eq in Hd. rewrite (Hmiss l1 Hd Hl1).
      unfold p at 1. simpl. rewrite Hd, String.eqb_refl. reflexivity.
    + assert (Hp : forall v, p (mkEmbeddingRecord id v) = false).
      { intros v. unfold p. simpl. rewrite String.eqb_sym. exact Hd. }
      rewrite Hp. replace (p r) with false; [reflexivity |].
      unfold p. rewrite Hr, String.eqb_sym. now rewrite Hd.
  - rewrite (Hout Hno), find_app. simpl.
    destruct (String.eqb (diary_id d) id) eqn:Hd.
    + apply String.eqb_eq in Hd. rewrite (Hmiss _ Hd Hno).
      unfold p. simpl. rewrite Hd, String.eqb_refl. reflexivity.
    + replace (p (mkEmbeddingRecord id (create_embedding text))) with false
        by (unfold p; simpl; rewrite String.eqb_sym; now rewrite Hd).
      now destruct (find p (load_embeddings_metadata s)).
Qed.

(** ** Updating a diary *)

Lemma update_diary_diaries (id : string) (ids : list string)
    (date_str text : string) (s : Store fl) :
  load_diaries (update_diary create_embedding id ids date_str text s)
  = fst (update_first (has_diary_id id) (set_diary_fields ids date_str text)
                      (load_diaries s)).
Proof.
  unfold update_diary. now rewrite update_diary_embedding_diaries.
Qed.

Lemma update_diary_metadata (id : string) (ids : list string)
    (date_str text : string) (s : Store fl) :
  load_embeddings_metadata (update_diary create_embedding id ids date_str text s)
  = load_embeddings_metadata (update_diary_embedding create_embedding id text s).
Proof.
  unfold update_diary. now rewrite !update_diary_embedding_metadata.
Qed.

(** X9: when the embedding of the new content fails, [update_diary] still
    rewrites the diary, and the metadata store keeps the vector computed
    from the old content: the stored embedding of every diary is
    unchanged. *)
Theorem update_diary_failed_embedding_keeps_vector (id : string)
    (ids : list string) (date_str text : string) (s : Store fl) :
  create_embedding text = [] ->
  In id (map diary_id (load_diaries s)) ->
  let s' := update_diary create_embedding id ids date_str text s in
  In (mkDiary id (Some ids) date_str text) (load_diaries s')
  /\ load_embeddings_metadata s' = load_embeddings_metadata s
  /\ forall d, stored_embedding s' d = stored_embedding s d.
Proof.
  intros Hfail Hin s'.
  assert (Hmd : load_embeddings_metadata s' = load_embeddings_metadata s).
  { unfold s'. rewrite update_diary_metadata, update_diary_embedding_metadata.
    now rewrite Hfail. }
  split; [| split; [exact Hmd | intros d; unfold stored_embedding; now rewrite Hmd]].
  unfold s'. rewrite update_diary_diaries.
  pose proof (update_first_split (has_diary_id id)
                (set_diary_fields ids date_str text) (load_diaries s)) as Hsplit.
  destruct (update_first _ _ (load_diaries s)) as [l' [|]]; simpl.
  - destruct Hsplit as [l1 [x [l2 [_ [Hx [_ ->]]]]]].
    apply in_or_app. right. left. unfold set_diary_fields.
    unfold has_diary_id in Hx. apply String.eqb_eq in Hx. now rewrite Hx.
  - destruct Hsplit as [_ Hall]. exfalso.
    apply in_map_iff in Hin. destruct Hin as [x [Hx Hin]].
    rewrite Forall_forall in Hall. specialize (Hall x Hin).
    unfold has_diary_id in Hall. rewrite Hx, String.eqb_refl in Hall.
    discriminate.
Qed.

(** X10: [update_diary] with an identifier no diary has changes no diary,
    and when the embedding succeeds it still stores an embedding record
    under that identifier. *)
Theorem update_diary_unknown_id (id : string) (ids : list string)
    (date_str text : string) (s : Store fl) :
  ~ In id (map diary_id (load_diaries s)) ->
  let s' := update_diary create_embedding id ids date_str text s in
  load_diaries s' = load_diaries s
  /\ (create_embedding text <> [] ->
      In (mkEmbeddingRecord id (create_embedding text))
         (load_embeddings_metadata s')).
Proof.
  intros Hnot s'. split.
  - unfold s'. rewrite update_diary_diaries.
    pose proof (update_first_split (has_diary_id id)
                  (set_diary_fields ids date_str text) (load_diaries s))
      as Hsplit.
    destruct (update_first _ _ (load_diaries s)) as [l' [|]]; simpl;
      [| tauto].
    destruct Hsplit as [l1 [x [l2 [Hl [Hx _]]]]]. exfalso. apply Hnot.
    rewrite Hl, map_app, in_app_iff. right. left.
    unfold has_diary_id in Hx. now apply String.eqb_eq in Hx.
  - intros Hok. unfold s'. rewrite update_diary_metadata.
    destruct (upsert_cases _ create_embedding id text s Hok) as [Hin Hout].
    destruct (in_dec string_dec id
                     (map meta_diary_id (load_embeddings_metadata s)))
      as [Hyes | Hno].
    + destruct (Hin Hyes) as [l1 [r [l2 [_ [_ [_ ->]]]]]].
      apply in_or_app. right. now left.
    + rewrite (Hout Hno). apply in_or_app. right. now left.
Qed.

(** ** Children *)

Lemma find_update_first {A : Type} (key : A -> string) (f : A -> A)
    (id id' : string) (l : list A) :
  (forall x, key (f x) = key x) ->
  find (fun x => String.eqb (key x) id')
       (fst (update_first (fun x => String.eqb (key x) id) f l))
  = if String.eqb id' id
    then option_map f (find (fun x => String.eqb (key x) id) l)
    else find (fun x => String.eqb (key x) id') l.
Proof.
  intros Hkey. induction l as [| x t IH]; simpl.
  - now destruct (String.eqb id' id).
  - destruct (String.eqb (key x) id) eqn:Hx.
    + apply String.eqb_eq in Hx. simpl. rewrite Hkey, Hx.
      rewrite (String.eqb_sym id id').
      now destruct (String.eqb id' id).
    + destruct (update_first _ f t) as [t' found]. simpl in *.
      destruct (String.eqb id' id) eqn:Hid.
      * apply String.eqb_eq in Hid. subst id'. rewrite Hx. exact IH.
      * destruct (String.eqb (key x) id'); [reflexivity | exact IH].
Qed.

Lemma find_filter_other {A : Type} (q r : A -> bool) (l : list A) :
  (forall x, q x = true -> r x = true) -> find q (filter r l) = find q l.
Proof.
  intros H. induction l as [| x t IH]; simpl; [reflexivity |].
  destruct (r x) eqn:Hr; simpl.
  - destruct (q x); [reflexivity | exact IH].
  - destruct (q x) eqn:Hq; [| exact IH].
    apply H in Hq. congruence.
Qed.

(** X11: after [add_child] the lookup of an identifier that was already
    registered answers as before, and the lookup of the new identifier
    answers with the new record when the identifier was free. *)
Theorem add_child_then_lookup (uuid child_name : string)
    (birth : calendar_date) (child_notes id : string) (s : Store fl) :
  get_child_by_id id (snd (add_child uuid child_name birth child_notes s))
  = match get_child_by_id id s with
    | Some child => Some child
    | None => if String.eqb uuid id
              then Some (mkChild uuid child_name birth (Some child_notes))
              else None
    end.
Proof.
  unfold get_child_by_id, add_child, load_children, save_children. simpl.
  rewrite find_app. simpl. unfold has_child_id at 2. simpl.
  now destruct (String.eqb uuid id).
Qed.


(** X13: after [delete_child] the lookup of the deleted identifier finds
    nothing, whatever the number of records that had it, and the lookup of
    every other identifier answers as before. *)
Theorem delete_child_then_lookup (id id' : string) (s : Store fl) :
  get_child_by_id id' (delete_child id s)
  = if String.eqb id' id then None else get_child_by_id id' s.
Proof.
  unfold get_child_by_id, delete_child, load_children, save_children,
    save_diaries, load_diaries. simpl.
  destruct (String.eqb id' id) eqn:Hid.
  - apply String.eqb_eq in Hid. subst id'.
    apply find_all_false. apply Forall_forall. intros c Hc.
    apply filter_In in Hc. destruct Hc as [_ Hc].
    now destruct (has_child_id id c).
  - apply find_filter_other. intros c Hc. unfold has_child_id in *.
    apply String.eqb_eq in Hc. rewrite Hc, Hid. reflexivity.
Qed.

(** ** Diaries *)

(** X14: [delete_diary] removes every diary with the identifier and keeps
    the others in their order; it changes no child, and the diaries a child
    sees are those it saw before without the deleted one. *)
Theorem delete_diary_removes_exactly (id : string) (s : Store fl) :
  let s' := delete_diary id s in
  load_diaries s'
  = filter (fun d => negb (has_diary_id id d)) (load_diaries s)
  /\ ~ In id (map diary_id (load_diaries s'))
  /\ (forall d, diary_id d <> id ->
                (In d (load_diaries s') <-> In d (load_diaries s)))
  /\ load_children s' = load_children s
  /\ (forall c, get_diaries_by_child c s'
                = filter (fun d => negb (has_diary_id id d))
                         (get_diaries_by_child c s)).
Proof using Type.
  intros s'.
  assert (Heq : load_diaries s'
                = filter (fun d => negb (has_diary_id id d)) (load_diaries s))
    by apply delete_diary_diaries.
  split; [exact Heq |]. split; [| split; [| split]].
  - rewrite Heq. intros Hin. apply in_map_iff in Hin.
    destruct Hin as [d [Hd Hin]]. apply filter_In in Hin.
    destruct Hin as [_ Hneq]. unfold has_diary_id in Hneq.
    rewrite Hd, String.eqb_refl in Hneq. discriminate.
  - intros d Hd. rewrite Heq, filter_In. split; [intros [H _]; exact H |].
    intros Hin. split; [exact Hin |]. unfold has_diary_id.
    apply negb_true_iff, String.eqb_neq. exact Hd.
  - unfold s', delete_diary.
    match goal with
    | |- context [rebuild_faiss_index ?x] =>
        destruct (rebuild_faiss_index_files _ x) as [-> _]
    end.
    reflexivity.
  - intros c. unfold get_diaries_by_child. rewrite Heq. apply filter_comm.
Qed.

(** X15: [add_diary] makes the new diary visible to exactly the children it
    lists: for a listed child it comes last among the child's diaries, and
    for any other child the diaries are those of before. *)
Theorem add_diary_visible_to_its_children (uuid : string)
    (ids : list string) (date_str text c : string) (s : Store fl) :
  get_diaries_by_child c
    (snd (add_diary create_embedding uuid ids date_str text s))
  = get_diaries_by_child c s
    ++ (if str_in c ids then [mkDiary uuid (Some ids) date_str text] else []).
Proof.
  unfold get_diaries_by_child, add_diary. cbn [snd diary_id].
  rewrite update_diary_embedding_diaries.
  unfold load_diaries at 1, save_diaries. simpl. rewrite filter_app. simpl.
  unfold get_child_ids at 2. simpl. now destruct (str_in c ids).
Qed.

End StoreProperties.

Section Composition.

Variable fl : Float32.
Variable create_embedding : string -> list fl.

Lemma reachable_step (c : command) (s : Store fl) :
  reachable create_embedding s ->
  reachable create_embedding (run create_embedding c s).
Proof.
  intros [cs ->]. exists (cs ++ [c]). now rewrite fold_left_app.
Qed.

Lemma search_returns_every_candidate (query child_id : string) (top_k : Z)
    (s : Store fl) (m : EmbeddingRecord fl) :
  create_embedding query <> [] ->
  same_dimension create_embedding query child_id s ->
  Z.of_nat (List.length (filtered_metadata_of child_id s)) <= top_k ->
  In m (filtered_metadata_of child_id s) ->
  In (meta_diary_id m)
     (map diary_id
          (search_similar_diaries create_embedding query child_id top_k s)).
Proof.
  intros Hq Hdim Hk Hm.
  assert (Hfm : filtered_metadata_of child_id s <> [])
    by (intros H0; rewrite H0 in Hm; exact Hm).
  assert (Hn : (0 < List.length (filtered_metadata_of child_id s))%nat)
    by (destruct (filtered_metadata_of child_id s); [congruence | simpl; lia]).
  pose proof (search_result_of_pipeline _ create_embedding query child_id
                top_k s Hq Hfm Hdim ltac:(lia)) as Hall.
  rewrite firstn_all2 in Hall by (rewrite ranked_candidates_length; lia).
  apply In_nth_error in Hm. destruct Hm as [i Hi].
  destruct (Forall2_In_l _ _ _
              (i, fvec_L2sqr (create_embedding query) (embedding m)) Hall)
    as [d [Hd Hp]].
  - apply ranked_candidates_In. now exists m.
  - destruct Hp as [m' [Hm' [_ Hf]]]. simpl in Hm'.
    assert (m' = m) by congruence. subst m'.
    apply find_some in Hf. destruct Hf as [_ Hf].
    apply String.eqb_eq in Hf. rewrite <- Hf. now apply in_map.
Qed.


(** ** Children referenced by diaries *)

Lemma add_diary_children (uuid : string) (ids : list string)
    (date_str text : string) (s : Store fl) :
  load_children (snd (add_diary create_embedding uuid ids date_str text s))
  = load_children s.
Proof.
  unfold add_diary. cbn [snd diary_id].
  now rewrite update_diary_embedding_children.
Qed.

Lemma update_diary_children (id : string) (ids : list string)
    (date_str text : string) (s : Store fl) :
  load_children (update_diary create_embedding id ids date_str text s)
  = load_children s.
Proof.
  unfold update_diary. now rewrite update_diary_embedding_children.
Qed.

Lemma delete_diary_children (id : string) (s : Store fl) :
  load_children (delete_diary id s) = load_children s.
Proof.
  unfold delete_diary.
  match goal with
  | |- context [rebuild_faiss_index ?x] =>
      destruct (rebuild_faiss_index_files _ x) as [-> _]
  end.
  reflexivity.
Qed.

(** X17: referential integrity is kept by every operation: when every child
    a diary references is registered, and the operation attaches only
    registered children to the diary it writes, every child a diary
    references is registered afterwards.  In particular [delete_child]
    leaves no diary that references the deleted child. *)
Theorem run_keeps_references_registered (c : command) (s : Store fl) :
  references_registered s ->
  attaches_registered s c ->
  references_registered (run create_embedding c s).
Proof.
  unfold references_registered, registered. intros Href Hatt.
  destruct c as [uuid n b nt | id n b nt | id | uuid ids dt tx | id ids dt tx | id];
    cbn [run attaches_registered] in *.
  - (* add_child *)
    unfold add_child, load_children, save_children. simpl.
    eapply Forall_impl; [| exact Href]. intros d Hd.
    eapply Forall_impl; [| exact Hd]. intros r Hr.
    rewrite map_app. apply in_or_app. now left.
  - (* update_child *)
    unfold update_child, load_children, save_children. simpl.
    rewrite (update_first_keys child_id) by reflexivity. exact Href.
  - (* delete_child *)
    unfold delete_child, load_children, save_children, load_diaries,
      save_diaries. simpl.
    apply Forall_forall. intros d Hd. apply filter_In in Hd.
    destruct Hd as [Hd Hnot].
    rewrite Forall_forall in Href. specialize (Href d Hd).
    apply Forall_forall. intros r Hr.
    rewrite Forall_forall in Href. specialize (Href r Hr).
    apply in_map_iff in Href. destruct Href as [child [Hid Hin]].
    apply in_map_iff. exists child. split; [exact Hid |].
    apply filter_In. split; [exact Hin |].
    unfold has_child_id. rewrite Hid.
    apply negb_true_iff, String.eqb_neq. intros ->.
    apply str_in_iff in Hr. rewrite Hr in Hnot. discriminate.
  - (* add_diary *)
    rewrite add_diary_children.
    unfold add_diary. cbn [snd diary_id].
    rewrite update_diary_embedding_diaries.
    unfold load_diaries at 1, save_diaries. simpl.
    apply Forall_app. split; [exact Href |].
    constructor; [exact Hatt | constructor].
  - (* update_diary *)
    rewrite update_diary_children, update_diary_diaries.
    apply update_first_Forall; [intros x; exact Hatt | exact Href].
  - (* delete_diary *)
    rewrite delete_diary_children, delete_diary_diaries.
    apply Forall_forall. intros d Hd. apply filter_In in Hd.
    rewrite Forall_forall in Href. apply Href. tauto.
Qed.

End Composition.

Section Advice.

Variable fl : Float32.
Variable create_embedding : string -> list fl.
Variable chat_completion : string -> string -> result string.

(** X18: for a registered child without any diary, and whenever the
    embedding of the question fails, the prompt [generate_advice] sends
    carries the fixed no-related-diary line as its context block; the other
    slots are the child's name, age, age label, notes and the question. *)
Theorem advice_prompt_without_diaries (question id : string)
    (today : calendar_date) (s : Store fl) (child : Child) :
  get_child_by_id id s = Some child ->
  get_diaries_by_child id s = [] \/ create_embedding question = [] ->
  generate_advice create_embedding chat_completion question id today s
  = match chat_completion
            Constants.SYSTEM_PROMPT
            (Constants.ADVICE_PROMPT_TEMPLATE_format
               (name child)
               (calculate_age_months (birth_date child) today)
               (format_age_display
                  (calculate_age_months (birth_date child) today))
               (get_notes child)
               "関連する日記はありません。"
               question) with
    | Ok text => text
    | Raise e => "アドバイス生成中にエラーが発生しました: " +++ exn_str e
    end.
Proof.
  intros Hchild Hnone. unfold generate_advice. rewrite Hchild.
  assert (Hid : child_id child = id).
  { unfold get_child_by_id in Hchild. apply find_some in Hchild.
    destruct Hchild as [_ H]. now apply String.eqb_eq in H. }
  assert (Hsearch : search_similar_diaries create_embedding question
                      (child_id child) Constants.RAG_TOP_K s = []).
  { rewrite Hid. unfold search_similar_diaries.
    rewrite search_body_early; [reflexivity |].
    destruct Hnone as [Hd | Hq]; [right | left; now rewrite Hq].
    unfold filtered_metadata_of, child_diaries_of.
    unfold get_diaries_by_child in Hd. rewrite Hd. simpl.
    now induction (load_embeddings_metadata s). }
  unfold user_prompt_of. now rewrite Hsearch.
Qed.

End Advice.

(** ** Age *)

(** X19: the age never decreases as the current date advances. *)
Theorem age_never_decreases (birth today today' : calendar_date) :
  month_in_range today -> month_in_range today' ->
  date_le today today' ->
  calculate_age_months birth today <= calculate_age_months birth today'.
Proof.
  unfold month_in_range, date_le, calculate_age_months.
  intros H1 H2 Hle.
  destruct (day today <? day birth) eqn:Ha, (day today' <? day birth) eqn:Hb;
    lia.
Qed.

(** X20: a birth date that is not before the current date gives the age 0:
    the clamp covers every date of birth in the future. *)
Theorem age_of_future_birth_is_zero (birth today : calendar_date) :
  month_in_range birth -> month_in_range today ->
  date_le today birth ->
  calculate_age_months birth today = 0.
Proof.
  unfold month_in_range, date_le, calculate_age_months.
  intros H1 H2 Hle. destruct (day today <? day birth) eqn:Ha; lia.
Qed.

(** X21: on the [n]-th anniversary of the birth the age is [12 n] months and
    the label shows the years alone. *)
Theorem age_on_birthdays (birth : calendar_date) (n : Z) :
  1 <= n ->
  let today := mkDate (year birth + n) (month birth) (day birth) in
  calculate_age_months birth today = 12 * n
  /\ format_age_display (calculate_age_months birth today)
     = str_of_int n +++ "歳".
Proof.
  intros Hn today.
  assert (Hage : calculate_age_months birth today = 12 * n).
  { unfold calculate_age_months, today. cbn [year month day].
    rewrite Z.ltb_irrefl. lia. }
  split; [exact Hage |]. rewrite Hage.
  rewrite format_age_display_years by lia.
  rewrite Z.mul_comm, Z_mod_mult, Z_div_mult by lia. reflexivity.
Qed.

(** ** The pages *)

Lemma insert_by_date_Permutation (d : Diary) (l : list Diary) :
  Permutation (insert_by_date d l) (d :: l).
Proof.
  induction l as [| h t IH]; simpl; [reflexivity |].
  destruct (String.leb (date h) (date d)); [reflexivity |].
  rewrite IH. apply perm_swap.
Qed.

Lemma insert_by_date_Sorted (d : Diary) (l : list Diary) :
  Sorted not_older l -> Sorted not_older (insert_by_date d l).
Proof.
  induction 1 as [| h t Hs IH Hhd]; simpl.
  - repeat constructor.
  - destruct (String.leb (date h) (date d)) eqn:Hle.
    + constructor; [now constructor | now constructor].
    + constructor; [exact IH |].
      assert (Hhd' : not_older h d).
      { unfold not_older. destruct (String.leb_total (date h) (date d));
          congruence. }
      destruct Hhd as [| b t' Hhb]; simpl; [now constructor |].
      destruct (String.leb (date b) (date d)); now constructor.
Qed.

Lemma sorted_by_date_desc_Permutation (diaries : list Diary) :
  Permutation (sorted_by_date_desc diaries) diaries.
Proof.
  induction diaries as [| d t IH]; simpl; [constructor |].
  rewrite insert_by_date_Permutation. now constructor.
Qed.

Lemma sorted_by_date_desc_Sorted (diaries : list Diary) :
  Sorted not_older (sorted_by_date_desc diaries).
Proof.
  induction diaries as [| d t IH]; simpl;
    [constructor | now apply insert_by_date_Sorted].
Qed.

(** X22: the diary list is shown newest first and complete: the displayed
    sequence is a rearrangement of the stored diaries in which no diary is
    followed by one with a later date. *)
Theorem diary_list_sorted_and_complete (diaries : list Diary) :
  Permutation (sorted_by_date_desc diaries) diaries
  /\ Sorted not_older (sorted_by_date_desc diaries).
Proof.
  split;
    [apply sorted_by_date_desc_Permutation | apply sorted_by_date_desc_Sorted].
Qed.

Lemma dict_get_set (k v n : string) (d : list (string * string)) :
  dict_get n (dict_set k v d)
  = if String.eqb k n then Some v else dict_get n d.
Proof.
  induction d as [| [k' v'] t IH]; simpl; [reflexivity |].
  destruct (String.eqb k' k) eqn:Hk; simpl.
  - apply String.eqb_eq in Hk. subst k'.
    now destruct (String.eqb k n).
  - rewrite IH. destruct (String.eqb k' n) eqn:Hn; [| reflexivity].
    apply String.eqb_eq in Hn. subst k'. now rewrite String.eqb_sym, Hk.
Qed.

Lemma child_options_from (children : list Child) (d : list (string * string))
    (n : string) :
  dict_get n (fold_left (fun d child =>
                           dict_set (name child) (child_id child) d)
                        children d)
  = match find (fun c => String.eqb (name c) n) (rev children) with
    | Some c => Some (child_id c)
    | None => dict_get n d
    end.
Proof.
  revert d. induction children as [| a t IH]; intros d; simpl; [reflexivity |].
  rewrite IH, find_app, dict_get_set. simpl.
  destruct (find _ (rev t)); [reflexivity |].
  now destruct (String.eqb (name a) n).
Qed.

Lemma child_options_get (children : list Child) (n : string) :
  dict_get n (child_options children)
  = option_map child_id
      (find (fun c => String.eqb (name c) n) (rev children)).
Proof.
  unfold child_options. rewrite child_options_from.
  now destruct (find _ (rev children)).
Qed.

(** X24: in the name-to-identifier table of the forms a name stands for the
    last child registered under it, so that of two children of one name only
    the later one can be selected; when all names differ, every child's name
    stands for that child's identifier. *)
Theorem child_options_last_name_wins (children : list Child) :
  (forall n,
      dict_get n (child_options children)
      = option_map child_id
          (find (fun c => String.eqb (name c) n) (rev children)))
  /\ (NoDup (map name children) ->
      forall c, In c children ->
                dict_get (name c) (child_options children)
                = Some (child_id c)).
Proof.
  split; [apply child_options_get |].
  intros Hnd c Hc. rewrite child_options_get.
  rewrite (find_unique name (rev children) c).
  - reflexivity.
  - rewrite map_rev. now apply NoDup_rev.
  - now apply in_rev in Hc.
Qed.

Section Pages.

Variable fl : Float32.

(** X23: under the advice form at most five diaries are listed; all of them
    are stored diaries of the selected child, they come newest first, and
    when the child has no more than five diaries they are all listed. *)
Theorem recent_child_diaries_are_the_newest (c : string) (s : Store fl) :
  (List.length (recent_child_diaries c s) <= 5)%nat
  /\ Forall (fun d => In d (load_diaries s) /\ In c (get_child_ids d))
            (recent_child_diaries c s)
  /\ Sorted not_older (recent_child_diaries c s)
  /\ ((List.length (get_diaries_by_child c s) <= 5)%nat ->
      Permutation (recent_child_diaries c s) (get_diaries_by_child c s)).
Proof.
  unfold recent_child_diaries.
  pose proof (sorted_by_date_desc_Permutation (get_diaries_by_child c s))
    as Hperm.
  pose proof (sorted_by_date_desc_Sorted (get_diaries_by_child c s))
    as Hsorted.
  split; [rewrite length_firstn; lia |]. split; [| split].
  - apply Forall_forall. intros d Hd. apply In_firstn in Hd.
    apply (Permutation_in _ Hperm) in Hd.
    unfold get_diaries_by_child in Hd. apply filter_In in Hd.
    split; [tauto | now apply str_in_iff].
  - now apply Sorted_firstn.
  - intros Hlen. rewrite firstn_all2; [exact Hperm |].
    now rewrite (Permutation_length Hperm).
Qed.

Lemma names_of_references (ids : list string) (s : Store fl) :
  let names :=
    flat_map (fun id => match get_child_by_id id s with
                        | Some child => [name child]
                        | None => []
                        end) ids in
  (List.length names <= List.length ids)%nat
  /\ Forall (fun n => In n (map name (load_children s))) names
  /\ (Forall (registered s) ids -> List.length names = List.length ids).
Proof.
  induction ids as [| id t IH]; simpl.
  - repeat split; constructor.
  - destruct IH as [Hlen [Hall Hreg]].
    destruct (get_child_by_id id s) as [child |] eqn:Hget; simpl.
    + split; [lia |]. split.
      * constructor; [| exact Hall].
        unfold get_child_by_id in Hget. apply find_some in Hget.
        apply in_map. tauto.
      * intros H. inversion H; subst. f_equal. now apply Hreg.
    + split; [lia |]. split; [exact Hall |].
      intros H. inversion H as [| x l Hx Ht]; subst. exfalso.
      unfold registered in Hx.
      destruct (find_present child_id (load_children s) id Hx) as [c Hc].
      unfold get_child_by_id in Hget.
      change (find (has_child_id id) (load_children s)) with
        (find (fun x => String.eqb (child_id x) id) (load_children s)) in Hget.
      congruence.
Qed.


End Pages.

Lemma selected_child_ids_Forall2 (options : list (string * string))
    (selected ids : list string) :
  selected_child_ids options selected = Some ids ->
  Forall2 (fun n id => dict_get n options = Some id) selected ids.
Proof.
  revert ids. induction selected as [| n t IH]; simpl; intros ids H.
  - injection H as <-. constructor.
  - destruct (dict_get n options) as [id |] eqn:Hn; [| discriminate].
    destruct (selected_child_ids options t) as [ids' |]; [| discriminate].
    injection H as <-. constructor; [exact Hn | now apply IH].
Qed.

Lemma selected_child_ids_None (options : list (string * string))
    (selected : list string) :
  selected_child_ids options selected = None ->
  exists n, In n selected /\ dict_get n options = None.
Proof.
  induction selected as [| n t IH]; simpl; [discriminate |].
  destruct (dict_get n options) as [id |] eqn:Hn.
  - destruct (selected_child_ids options t) as [ids' |]; [discriminate |].
    intros _. destruct (IH eq_refl) as [n' [Hin Hnone]].
    exists n'. tauto.
  - intros _. exists n. tauto.
Qed.

Section DiaryForm.

Variable fl : Float32.
Variable create_embedding : string -> list fl.


End DiaryForm.

(** ** The data directory *)

Section Directory.

Variable fl : Float32.


End Directory.

(** ** The index file and the search *)

(** X28: neither the search nor the advice reads the persisted index: two
    stores with the same children, diaries and embedding records give the
    same search result and the same advice, whatever their index files
    hold. *)
Theorem search_and_advice_ignore_index_file (fl : Float32)
    (create_embedding : string -> list fl)
    (chat_completion : string -> string -> result string)
    (children : list Child) (diaries : list Diary)
    (metadata : list (EmbeddingRecord fl)) (i1 i2 : option (FaissIndex fl))
    (query child_id : string) (top_k : Z) (today : calendar_date) :
  search_similar_diaries create_embedding query child_id top_k
                         (mkStore children diaries metadata i1)
  = search_similar_diaries create_embedding query child_id top_k
                           (mkStore children diaries metadata i2)
  /\ generate_advice create_embedding chat_completion query child_id today
                     (mkStore children diaries metadata i1)
     = generate_advice create_embedding chat_completion query child_id today
                       (mkStore children diaries metadata i2).
Proof. split; reflexivity. Qed.

(** ** The further theorems at the sample store *)

Lemma embed_fixed_dimension : fixed_dimension Sample.embed 2.
Proof.
  intros text. unfold Sample.embed.
  repeat (destruct (String.eqb text _); [right; reflexivity |]).
  now left.
Qed.

Lemma store0_reachable : reachable Sample.embed Sample.store0.
Proof. exists Sample.history. reflexivity. Qed.

Lemma store_one_reachable : reachable Sample.embed Sample.store_one.
Proof.
  exists [AddDiary "d1" ["c1"] "2024-01-05" "夜泣きがひどい"]. reflexivity.
Qed.


Lemma search_prefix_in_top_k_sample :
  search_similar_diaries Sample.embed Sample.question "c1" 1 Sample.store0
  = firstn (Z.to_nat 1)
           (search_similar_diaries Sample.embed Sample.question "c1" 5
                                   Sample.store0).
Proof.
  exact (search_prefix_in_top_k Sample.Zfloat Sample.embed Sample.question
           "c1" 1 5 Sample.store0 ltac:(lia) ltac:(lia)).
Defined.

Lemma persisted_index_matches_metadata_sample :
  EMBEDDINGS_INDEX_FILE Sample.store0
  = Some (mkFaissIndex 2
            (map embedding (load_embeddings_metadata Sample.store0))).
Proof.
  assert (Hne : load_embeddings_metadata Sample.store0 <> [])
    by (vm_compute; discriminate).
  exact (persisted_index_matches_metadata Sample.Zfloat Sample.embed 2
           Sample.store0 embed_fixed_dimension store0_reachable Hne).
Defined.

Lemma deleting_last_record_leaves_index_sample :
  load_embeddings_metadata (delete_diary "d1" Sample.store_one) = []
  /\ EMBEDDINGS_INDEX_FILE (delete_diary "d1" Sample.store_one)
     = Some (mkFaissIndex 2
               (map embedding (load_embeddings_metadata Sample.store_one))).
Proof.
  assert (Hne : load_embeddings_metadata Sample.store_one <> [])
    by (vm_compute; discriminate).
  assert (He : load_embeddings_metadata (delete_diary "d1" Sample.store_one)
               = []) by reflexivity.
  split; [exact He |].
  exact (deleting_last_record_leaves_index Sample.Zfloat Sample.embed 2 "d1"
           Sample.store_one embed_fixed_dimension store_one_reachable Hne He).
Defined.

Lemma upsert_then_lookup_sample :
  stored_embedding
    (update_diary_embedding Sample.embed "d1" "公園で遊んだ" Sample.store0)
    Sample.d1
  = if String.eqb (diary_id Sample.d1) "d1"
    then Some (Sample.embed "公園で遊んだ")
    else stored_embedding Sample.store0 Sample.d1.
Proof.
  assert (Hok : Sample.embed "公園で遊んだ" <> [])
    by (vm_compute; discriminate).
  exact (upsert_then_lookup Sample.Zfloat Sample.embed "d1" "公園で遊んだ"
           Sample.store0 Sample.d1 Hok).
Defined.

Lemma update_diary_failed_embedding_keeps_vector_sample :
  let s' := update_diary Sample.embed "d1" ["c1"] "2024-01-06" "熱が出た"
                         Sample.store0 in
  In (mkDiary "d1" (Some ["c1"]) "2024-01-06" "熱が出た") (load_diaries s')
  /\ load_embeddings_metadata s' = load_embeddings_metadata Sample.store0
  /\ forall d, stored_embedding s' d = stored_embedding Sample.store0 d.
Proof.
  assert (Hin : In "d1" (map diary_id (load_diaries Sample.store0)))
    by (vm_compute; auto).
  exact (update_diary_failed_embedding_keeps_vector Sample.Zfloat Sample.embed
           "d1" ["c1"] "2024-01-06" "熱が出た" Sample.store0 eq_refl Hin).
Defined.

Lemma update_diary_unknown_id_sample :
  let s' := update_diary Sample.embed "d9" ["c1"] "2024-01-06" "公園で遊んだ"
                         Sample.store0 in
  load_diaries s' = load_diaries Sample.store0
  /\ (Sample.embed "公園で遊んだ" <> [] ->
      In (mkEmbeddingRecord "d9" (Sample.embed "公園で遊んだ"))
         (load_embeddings_metadata s')).
Proof.
  assert (Hnot : ~ In "d9" (map diary_id (load_diaries Sample.store0)))
    by (vm_compute; intuition discriminate).
  exact (update_diary_unknown_id Sample.Zfloat Sample.embed "d9" ["c1"]
           "2024-01-06" "公園で遊んだ" Sample.store0 Hnot).
Defined.


Lemma store0_references_registered : references_registered Sample.store0.
Proof.
  unfold references_registered, registered. vm_compute.
  repeat match goal with |- Forall _ _ => constructor end; auto 10.
Qed.

Lemma run_keeps_references_registered_sample :
  references_registered (run Sample.embed (DeleteChild "c1") Sample.store0).
Proof.
  exact (run_keeps_references_registered Sample.Zfloat Sample.embed
           (DeleteChild "c1") Sample.store0 store0_references_registered I).
Defined.

Lemma advice_prompt_without_diaries_sample :
  generate_advice Sample.embed Sample.echo "熱が出た" "c1" (mkDate 2024 3 10)
                  Sample.store0
  = match Sample.echo
            Constants.SYSTEM_PROMPT
            (Constants.ADVICE_PROMPT_TEMPLATE_format
               (name Sample.taro)
               (calculate_age_months (birth_date Sample.taro)
                                     (mkDate 2024 3 10))
               (format_age_display
                  (calculate_age_months (birth_date Sample.taro)
                                        (mkDate 2024 3 10)))
               (get_notes Sample.taro)
               "関連する日記はありません。"
               "熱が出た") with
    | Ok text => text
    | Raise e => "アドバイス生成中にエラーが発生しました: " +++ exn_str e
    end.
Proof.
  assert (Hchild : get_child_by_id "c1" Sample.store0 = Some Sample.taro)
    by reflexivity.
  exact (advice_prompt_without_diaries Sample.Zfloat Sample.embed Sample.echo
           "熱が出た" "c1" (mkDate 2024 3 10) Sample.store0 Sample.taro
           Hchild (or_intror eq_refl)).
Defined.

Lemma age_never_decreases_sample :
  calculate_age_months (mkDate 2023 1 15) (mkDate 2024 3 10)
  <= calculate_age_months (mkDate 2023 1 15) (mkDate 2024 4 1).
Proof.
  apply age_never_decreases;
    unfold month_in_range, date_le; simpl; lia.
Defined.

Lemma age_of_future_birth_is_zero_sample :
  calculate_age_months (mkDate 2024 3 20) (mkDate 2024 3 10) = 0.
Proof.
  apply age_of_future_birth_is_zero;
    unfold month_in_range, date_le; simpl; lia.
Defined.

Lemma age_on_birthdays_sample :
  let today := mkDate (year (mkDate 2023 1 15) + 2)
                      (month (mkDate 2023 1 15)) (day (mkDate 2023 1 15)) in
  calculate_age_months (mkDate 2023 1 15) today = 12 * 2
  /\ format_age_display (calculate_age_months (mkDate 2023 1 15) today)
     = str_of_int 2 +++ "歳".
Proof.
  exact (age_on_birthdays (mkDate 2023 1 15) 2 ltac:(lia)).
Defined.

